(** * lib/backends/sdc/networks.js: a shallow embedding

    The module resolves docker-style network identifiers against NAPI
    (getNetworksOrPools, findNetworkOrPoolByNameOrId) and provisions fabric
    networks (createNetwork).  Remote calls and log lines are recorded as a
    trace of events; values come back through an outcome that is either a
    returned value or a thrown JavaScript exception. *)

From Stdlib Require Import ZArith List String Ascii Bool Lia DecimalString Sorted.
Import ListNotations.
Local Open Scope Z_scope.

(** ** JavaScript values and helpers *)

(** [s.substr(start)] *)
Definition substr_from (s : string) (start : nat) : string :=
  substring start (String.length s - start) s.

(** [s.substr(start, len)] *)
Definition substr (s : string) (start len : nat) : string :=
  substring start len s.

(** [s.substring(0, n)] for [n >= 0] *)
Definition substring0 (s : string) (n : nat) : string :=
  substring 0 n s.

(** [String(n)] for an integral number *)
Definition toString (n : Z) : string :=
  NilZero.string_of_int (Z.to_int n).

(** Insertion of [x] into a list ordered by the string form of its members:
    the comparison [Array.prototype.sort] uses when it is given no compare
    function. *)
Fixpoint sortInsert (x : Z) (l : list Z) : list Z :=
  match l with
  | [] => [x]
  | y :: l' =>
      if String.leb (toString x) (toString y) then x :: y :: l'
      else y :: sortInsert x l'
  end.

(** [arr.sort()] on an array of numbers: members are ordered by their string
    forms, compared code unit by code unit. *)
Fixpoint sort (l : list Z) : list Z :=
  match l with
  | [] => []
  | x :: l' => sortInsert x (sort l')
  end.

(** ** Exceptions, outcomes and the event trace *)

Inductive exn :=
| TypeError (msg : string)
| AssertionError (msg : string)
| LoopBound.

Inductive outcome (A : Type) :=
| Ret (a : A)
| Throw (e : exn).
Arguments Ret {A} a.
Arguments Throw {A} e.

(** ** Free vlan id scan (createNetwork, findFreeFabricVlanId) *)

(** The inner loop
    [while (id === takenVlanIds[takenIdx]) { assert.ok(takenIdx < 1024); takenIdx += 1; }].
    [n] bounds the iterations; [length takenVlanIds] is always enough since
    an index past the end reads [undefined]. *)
Fixpoint skipDuplicates (n : nat) (takenVlanIds : list Z) (id : Z)
  (takenIdx : nat) : outcome nat :=
  match nth_error takenVlanIds takenIdx with
  | Some t =>
      if id =? t then
        if (takenIdx <? 1024)%nat then
          match n with
          | O => Throw LoopBound
          | S n' => skipDuplicates n' takenVlanIds id (S takenIdx)
          end
        else Throw (AssertionError "takenIdx < 1024")
      else Ret takenIdx
  | None => Ret takenIdx
  end.

(** The outer loop [while (id < 1024 && freeVlanIds.length < 10) { ... }].
    [n] bounds the iterations; every iteration increments [id], so 1025 are
    enough from [id = -1]. *)
Fixpoint scanLoop (n : nat) (takenVlanIds : list Z) (id : Z) (takenIdx : nat)
  (freeVlanIds : list Z) : outcome (list Z) :=
  if (id <? 1024) && (List.length freeVlanIds <? 10)%nat then
    match n with
    | O => Throw LoopBound
    | S n' =>
        let id := id + 1 in
        if id =? 1 then
          (* Cannot use vlan_id === 1. *)
          scanLoop n' takenVlanIds id takenIdx freeVlanIds
        else
          match nth_error takenVlanIds takenIdx with
          | Some t =>
              if id =? t then
                match skipDuplicates (List.length takenVlanIds) takenVlanIds
                        id (S takenIdx) with
                | Ret takenIdx' =>
                    scanLoop n' takenVlanIds id takenIdx' freeVlanIds
                | Throw e => Throw e
                end
              else scanLoop n' takenVlanIds id takenIdx (freeVlanIds ++ [id])
          | None => scanLoop n' takenVlanIds id takenIdx (freeVlanIds ++ [id])
          end
    end
  else Ret freeVlanIds.

(** The iterations the outer loop can make from [id = -1]. *)
Definition scanBound : nat := 1025.

(** The scan over an already ordered array of taken ids:
    [freeVlanIds = []; id = -1; takenIdx = 0; while ...]. *)
Definition scanFreeVlanIds (takenVlanIds : list Z) : outcome (list Z) :=
  scanLoop scanBound takenVlanIds (-1) 0 [].

Record napiVlan := { vlan_id : Z }.

(** [takenVlanIds = vlans.map(function (vlan) { return vlan.vlan_id; }).sort()]
    followed by the scan. *)
Definition freeVlanIdsOf (vlans : list napiVlan) : outcome (list Z) :=
  scanFreeVlanIds (sort (map vlan_id vlans)).

Definition vlansOf (ids : list Z) : list napiVlan :=
  map (fun i => {| vlan_id := i |}) ids.

(** ** NAPI objects, errors and the service *)

(** An error object handed back by the NAPI client. *)
Record napiError := { statusCode : option Z; message : string }.

(** A NAPI network or network pool; [n_networks] is the member array, present
    on pools only. *)
Record napiNetwork := {
  n_uuid : string;
  n_name : string;
  n_nic_tag : string;
  n_networks : option (list string);
  n_fabric : bool;
  n_subnet : string;
  n_gateway : string;
  n_mtu : option Z;
  n_vlan_id : option Z
}.

(** Errors that travel through callbacks.  The constructors of the errors
    module ([../../errors]) are kept as constructors. *)
Inductive error :=
| NapiError (e : napiError)
| JsError (msg : string)
| AmbiguousDockerNetworkIdPrefixError (name : string)
| NetworkNotFoundError (name : string)
| ValidationError (msg : string)
| DockerError (msg : string)
| napiErrorWrap (e : napiError) (msg : string).

(** The filter object given to the list calls. *)
Record listParams := {
  p_name : option string;
  p_uuid : option string;
  p_provisionable_by : option string
}.

(** What a list call passes to its callback: [(err, res)]. *)
Record listReply := {
  reply_err : option napiError;
  reply_res : option (list napiNetwork)
}.

Record fabricNetworkParams := {
  fp_name : string;
  fp_provision_start_ip : string;
  fp_provision_end_ip : string;
  fp_subnet : string;
  fp_vlan_id : Z
}.

(** The NAPI client: the reply the service gives to each request during one
    run of the functions below. *)
Record NAPI := {
  listNetworks : listParams -> listReply;
  listNetworkPools : listParams -> listReply;
  getFabricVLAN : string -> Z -> napiError + napiVlan;
  listFabricVLANs : string -> napiError + list napiVlan;
  createFabricVLAN : string -> Z -> napiError + napiVlan;
  createFabricNetwork :
    string -> Z -> fabricNetworkParams -> napiError + napiNetwork;
  deleteFabricNetwork : string -> option Z -> string -> option napiError;
  deleteFabricVLAN : string -> option Z -> option napiError
}.

Inductive call :=
| ListNetworks (p : listParams)
| ListNetworkPools (p : listParams)
| GetFabricVLAN (account : string) (id : Z)
| ListFabricVLANs (account : string)
| CreateFabricVLAN (account : string) (id : Z)
| CreateFabricNetwork (account : string) (id : Z) (p : fabricNetworkParams)
| DeleteFabricNetwork (account : string) (id : option Z) (uuid : string)
| DeleteFabricVLAN (account : string) (id : option Z).

Inductive level := Debug | Info | Warn | Error.

(** A remote call, or a log line with the errors it carries. *)
Inductive event :=
| Call (c : call)
| Log (l : level) (errs : list error) (msg : string).

(** ** The monad: an outcome and the events emitted on the way *)

Definition M (A : Type) : Type := (outcome A * list event)%type.

Definition ret {A} (a : A) : M A := (Ret a, []).

Definition bind {A B} (m : M A) (f : A -> M B) : M B :=
  match m with
  | (Ret a, t) => let (o, t') := f a in (o, t ++ t')
  | (Throw e, t) => (Throw e, t)
  end.

Definition throw {A} (e : exn) : M A := (Throw e, []).

Definition emit (ev : event) : M unit := (Ret tt, [ev]).

Definition lift {A} (o : outcome A) : M A := (o, []).

Notation "x <- c1 ;; c2" := (bind c1 (fun x => c2))
  (at level 61, c1 at next level, right associativity).
Notation "c1 ;;; c2" := (bind c1 (fun _ => c2))
  (at level 61, right associativity).

Definition log (l : level) (errs : list error) (msg : string) : M unit :=
  emit (Log l errs msg).

Definition value {A} (m : M A) : outcome A := fst m.
Definition trace {A} (m : M A) : list event := snd m.

(** The calls of a trace, in the order they were issued. *)
Fixpoint calls (t : list event) : list call :=
  match t with
  | [] => []
  | Call c :: t' => c :: calls t'
  | Log _ _ _ :: t' => calls t'
  end.

(** ** vasync *)

(** What a function passes to its callback: [(err, result)]. *)
Definition cbArgs (V : Type) : Type := (option error * option V)%type.

(** [vasync.tryEach]: the functions run in order until one calls back without
    an error; the final callback receives what the last function run passed. *)
Fixpoint tryEach {V} (funcs : list (M (cbArgs V))) : M (cbArgs V) :=
  match funcs with
  | [] => ret (None, None)
  | f :: rest =>
      r <- f ;;
      match fst r, rest with
      | Some _, _ :: _ => tryEach rest
      | _, _ => ret r
      end
  end.

(** [vasync.pipeline]: stages run in order on the shared state and stop at
    the first error. *)
Fixpoint pipeline {S} (funcs : list (S -> M (option error * S))) (s : S)
  : M (option error * S) :=
  match funcs with
  | [] => ret (None, s)
  | f :: rest =>
      r <- f s ;;
      match fst r with
      | Some e => ret r
      | None => pipeline rest (snd r)
      end
  end.

(** [vasync.forEachPipeline]: [func] runs on each input in order and stops
    at the first input for which it calls back with a truthy argument. *)
Fixpoint forEachPipeline {A S E} (func : A -> S -> M (option E * S))
  (inputs : list A) (s : S) : M (option E * S) :=
  match inputs with
  | [] => ret (None, s)
  | a :: rest =>
      r <- func a s ;;
      match fst r with
      | Some e => ret r
      | None => forEachPipeline func rest (snd r)
      end
  end.

(** One entry of [results.operations] of [vasync.parallel]. *)
Record operation := {
  op_err : option error;
  op_result : option (list napiNetwork)
}.

(** [vasync.parallel]: every function is started, in array order; the
    outcomes are stored by position.  The events of the functions are
    recorded function by function. *)
Fixpoint parallelOps (funcs : list (M operation)) : M (list operation) :=
  match funcs with
  | [] => ret []
  | f :: rest =>
      op <- f ;;
      ops <- parallelOps rest ;;
      ret (op :: ops)
  end.

(** The errors of the failed operations, in array order: the members of the
    MultiError that [vasync.parallel] passes when it is not empty. *)
Fixpoint failures (ops : list operation) : list error :=
  match ops with
  | [] => []
  | op :: rest =>
      match op_err op with
      | Some e => e :: failures rest
      | None => failures rest
      end
  end.

(** ** getNetworksOrPools *)

(** Truthiness of an optional string property: [undefined] and the empty
    string are falsy. *)
Definition truthy (o : option string) : bool :=
  match o with
  | Some s => negb (String.eqb s "")
  | None => false
  end.

(** [a || b] for an optional string [a] and a string [b] *)
Definition orElse (a : option string) (b : string) : string :=
  match a with
  | Some s => if String.eqb s "" then b else s
  | None => b
  end.

(** [err && err.statusCode !== 404] *)
Definition realError (err : option napiError) : bool :=
  match err with
  | Some e =>
      match statusCode e with
      | Some c => negb (c =? 404)
      | None => true
      end
  | None => false
  end.

(** [res && res.length === 0] *)
Definition emptyList (res : option (list napiNetwork)) : bool :=
  match res with
  | Some [] => true
  | _ => false
  end.

(** The object a search function calls back with: [{err: err}] or
    [{res: res}]. *)
Record searchResult := {
  sr_err : option napiError;
  sr_res : option (list napiNetwork)
}.

Definition errOf (o : option napiError) : option error :=
  match o with
  | Some e => Some (NapiError e)
  | None => None
  end.

(** The callback shared by [listNets] and [listNetPools]. *)
Definition directCb (r : listReply) : cbArgs searchResult :=
  if emptyList (reply_res r) then (Some (JsError "Empty List"), None)
  else if realError (reply_err r) then
    (None, Some {| sr_err := reply_err r; sr_res := None |})
  else
    (errOf (reply_err r), Some {| sr_err := None; sr_res := reply_res r |}).

(** The callback shared by [listFiltNets] and [listFiltNetPools]; [notFound]
    is the message of the error for an empty filtered list. *)
Definition filteredCb (uuidPref : string) (sz : nat) (notFound : string)
  (r : listReply) : M (cbArgs searchResult) :=
  if emptyList (reply_res r) then ret (Some (JsError "Empty List"), None)
  else if realError (reply_err r) then
    ret (None, Some {| sr_err := reply_err r; sr_res := None |})
  else
    match reply_res r with
    | None => throw (TypeError "Cannot read property 'filter' of undefined")
    | Some res =>
        let filtered :=
          filter (fun p => String.eqb uuidPref (substring0 (n_uuid p) sz))
                 res in
        if (0 <? List.length filtered)%nat then
          ret (None, Some {| sr_err := None; sr_res := Some filtered |})
        else ret (Some (JsError notFound), None)
    end.

(** The body shared by [listFiltNets] and [listFiltNetPools]: the fallback
    for a NAPI that does not match uuids by prefix. *)
Definition filteredSearch (params : listParams)
  (request : listParams -> call) (reply : listParams -> listReply)
  (notFound : string) : M (cbArgs searchResult) :=
  if truthy (p_name params) then
    (* Can't prefix search names *)
    ret (Some (JsError "Net name not found"), None)
  else
    match p_uuid params with
    | None => throw (TypeError "Cannot read property 'substring' of undefined")
    | Some uuid =>
        let uuidPref := substring0 uuid (String.length uuid - 1) in
        let sz := String.length uuidPref in
        match String.get (String.length uuid - 1) uuid with
        | Some "*"%char =>
            let newParams :=
              {| p_name := None; p_uuid := None;
                 p_provisionable_by := p_provisionable_by params |} in
            emit (Call (request newParams)) ;;;
            filteredCb uuidPref sz notFound (reply newParams)
        | _ => ret (Some (JsError "Must be prefix"), None)
        end
    end.

Definition listNets (napi : NAPI) (params : listParams)
  : M (cbArgs searchResult) :=
  emit (Call (ListNetworks params)) ;;;
  ret (directCb (listNetworks napi params)).

Definition listFiltNets (napi : NAPI) (params : listParams)
  : M (cbArgs searchResult) :=
  filteredSearch params ListNetworks (listNetworks napi) "Network not found".

Definition listNetPools (napi : NAPI) (params : listParams)
  : M (cbArgs searchResult) :=
  emit (Call (ListNetworkPools params)) ;;;
  ret (directCb (listNetworkPools napi params)).

Definition listFiltNetPools (napi : NAPI) (params : listParams)
  : M (cbArgs searchResult) :=
  filteredSearch params ListNetworkPools (listNetworkPools napi)
    "Network pool not found".

Definition final : M (cbArgs searchResult) :=
  ret (None, Some {| sr_err := None; sr_res := Some [] |}).

(** What [getNetworksOrPools] passes to its callback: [(res.err, res.res)]. *)
Definition searchReply : Type :=
  (option napiError * option (list napiNetwork))%type.

Definition getNetworksOrPools (napi : NAPI) (params : listParams)
  : M searchReply :=
  if negb (truthy (p_name params) || truthy (p_uuid params)) then
    throw (AssertionError "params name or uuid")
  else
    r <- tryEach [listNets napi params; listFiltNets napi params;
                  listNetPools napi params; listFiltNetPools napi params;
                  final] ;;
    match snd r with
    | None => throw (TypeError "Cannot read property 'err' of undefined")
    | Some res =>
        match sr_err res, sr_res res with
        | None, None => throw (AssertionError "res.err || res.res")
        | _, _ => ret (sr_err res, sr_res res)
        end
    end.

Section Externals.

(** Helpers of [./utils] and of the platform that this file calls. *)
Variable shortNetworkIdToUuidPrefix : string -> string.
Variable ldapEscape : string -> string.
Variable networkUuidToDockerId : string -> string.
(** [Number(s)] on a string; [None] is NaN. *)
Variable Number : string -> option Z.
(** [ipaddr.createCIDR(s)] with [first()] and [last()] printed; [None] when
    it throws. *)
Variable createCIDR : string -> option (string * string).

(** ** findNetworkOrPoolByNameOrId *)

(** A search handed to [vasync.parallel]: its callback arguments become the
    operation's [err] and [result]. *)
Definition search (napi : NAPI) (listParams : listParams) : M operation :=
  r <- getNetworksOrPools napi listParams ;;
  ret {| op_err := errOf (fst r); op_result := snd r |}.

(** [setImmediate(cb, null, [])] *)
Definition skipped : M operation :=
  ret {| op_err := None; op_result := Some [] |}.

Definition byExactId (napi : NAPI) (name account : string) : M operation :=
  if negb (String.eqb (substr name 0 32) (substr_from name 32)) then
    log Debug [] ("Networks: impossible exactId: " ++ name ++ ", skipping") ;;;
    skipped
  else
    let uuid := shortNetworkIdToUuidPrefix name in
    let listParams :=
      {| p_name := None; p_uuid := Some (ldapEscape uuid);
         p_provisionable_by := Some account |} in
    search napi listParams.

Definition byName (napi : NAPI) (name account : string) : M operation :=
  let listParams :=
    {| p_name := Some name; p_uuid := None;
       p_provisionable_by := Some account |} in
  log Debug [] ("Networks: searching for network " ++ name) ;;;
  search napi listParams.

(** The local test of [byDockerId]: [true] when the id is impossible under
    the double-uuid convention and the search is skipped. *)
Definition impossibleDockerId (name : string) : bool :=
  if (32 <=? String.length name)%nat then
    let secondHalf := substr_from name 32 in
    let firstHalf := substr name 0 31 in
    (String.length firstHalf <=? String.length secondHalf)%nat
    || negb (String.eqb secondHalf
               (substr firstHalf 0 (String.length secondHalf)))
  else false.

Definition byDockerId (napi : NAPI) (name account : string) : M operation :=
  if impossibleDockerId name then
    log Info [] ("Networks: impossible network id " ++ name ++ ", skipping") ;;;
    skipped
  else
    let uuidSearchStr :=
      (ldapEscape (shortNetworkIdToUuidPrefix name) ++ "*")%string in
    let listParams :=
      {| p_name := None; p_uuid := Some uuidSearchStr;
         p_provisionable_by := Some account |} in
    log Debug [] ("Networks: searching for network " ++ uuidSearchStr) ;;;
    search napi listParams.

(** The accumulator of the reduction over [results.operations]. *)
Record match_ := {
  m_err : option error;
  m_result : option napiNetwork
}.

(** One step of the reduction; reading [length] of a missing result throws. *)
Definition preferStep (name : string) (acc : match_) (op : operation)
  : outcome match_ :=
  match m_err acc, m_result acc with
  | None, None =>
      match op_err op with
      | Some e => Ret {| m_err := Some e; m_result := m_result acc |}
      | None =>
          match op_result op with
          | None =>
              Throw (TypeError "Cannot read property 'length' of undefined")
          | Some [] => Ret acc
          | Some [net] => Ret {| m_err := m_err acc; m_result := Some net |}
          | Some (_ :: _ :: _) =>
              Ret {| m_err := Some (AmbiguousDockerNetworkIdPrefixError name);
                     m_result := m_result acc |}
          end
      end
  | _, _ => Ret acc
  end.

(** [results.operations.reduce(..., { err: null, result: null })] *)
Fixpoint bestMatchFrom (name : string) (acc : match_) (ops : list operation)
  : outcome match_ :=
  match ops with
  | [] => Ret acc
  | op :: rest =>
      match preferStep name acc op with
      | Ret acc' => bestMatchFrom name acc' rest
      | Throw e => Throw e
      end
  end.

Definition bestMatchOf (name : string) (ops : list operation)
  : outcome match_ :=
  bestMatchFrom name {| m_err := None; m_result := None |} ops.

(** The callback of [vasync.parallel]; [err] is the MultiError of the failed
    operations, here the list of its members. *)
Definition listedNetworks (name : string) (ops : list operation)
  : M (error + napiNetwork) :=
  let err := failures ops in
  bestMatch <- lift (bestMatchOf name ops) ;;
  match m_err bestMatch, m_result bestMatch with
  | Some e, _ =>
      (* found an error before a result. *)
      log Error [e] ("Networks: Error finding network to match " ++ name) ;;;
      ret (inl e)
  | None, None =>
      log Info [] ("Networks: no results for name " ++ name) ;;;
      ret (inl (NetworkNotFoundError name))
  | None, Some net =>
      match err with
      | [] => ret tt
      | _ :: _ =>
          (* found result before an error, but did have errs. *)
          log Warn err "Networks: non-critical error searching NAPI"
      end ;;;
      log Debug []
        ("Networks: chose " ++ n_name net ++ "/" ++ n_uuid net) ;;;
      ret (inr net)
  end.

Definition findNetworkOrPoolByNameOrId (napi : NAPI) (name account : string)
  : M (error + napiNetwork) :=
  ops <- parallelOps [byExactId napi name account;
                      byName napi name account;
                      byDockerId napi name account] ;;
  listedNetworks name ops.

(** ** createNetwork *)

Definition TRITON_NETWORK_VLAN_ID : string := "triton.network.vlan_id".

(** The value of [payload.Labels && payload.Labels[TRITON_NETWORK_VLAN_ID]]:
    missing, a string, or a value of another type with its truthiness. *)
Inductive labelValue :=
| LUndefined
| LString (s : string)
| LOther (isTruthy : bool).

Record ipamConfig := {
  Subnet : string;
  IPRange : option string
}.

(** [req.body], with [Labels] reduced to the one label read and
    [IPAM.Config] to its first entry. *)
Record payload := {
  Name : string;
  vlanIdLabel : labelValue;
  IPAMConfig0 : ipamConfig
}.

Record request := {
  account_uuid : string;
  body : payload
}.

(** The variables the pipeline stages share: [ctx] and [createdFabricVlan]. *)
Record context := {
  fabricVlanId : option Z;
  fabricVlan : option napiVlan;
  freeVlanIds : option (list Z);
  fabricNetwork : option napiNetwork;
  createdFabricVlan : bool
}.

Definition emptyContext : context :=
  {| fabricVlanId := None; fabricVlan := None; freeVlanIds := None;
     fabricNetwork := None; createdFabricVlan := false |}.

(** The checks on the label before the pipeline starts: an error for the
    caller, or [vlanId] ([None] is [undefined]). *)
Definition validateVlanLabel (l : labelValue) : error + option Z :=
  match l with
  | LUndefined => inr None
  | LOther false => inr None
  | LOther true =>
      inl (ValidationError ("Label value for " ++ TRITON_NETWORK_VLAN_ID
                            ++ " must be a string"))
  | LString vlanIdStr =>
      if String.eqb vlanIdStr "" then inr None
      else
        match Number vlanIdStr with
        | None =>
            inl (ValidationError ("Invalid value for "
                   ++ TRITON_NETWORK_VLAN_ID ++ ": " ++ vlanIdStr))
        | Some vlanId =>
            if (vlanId =? 1) || (vlanId <? 0) then
              inl (ValidationError ("Invalid value for "
                     ++ TRITON_NETWORK_VLAN_ID ++ ": " ++ vlanIdStr))
            else inr (Some vlanId)
        end
  end.

Definition lookupExistingFabricVlan (napi : NAPI) (req : request)
  (vlanId : option Z) (ctx : context)
  : M (option error * context) :=
  match vlanId with
  | None =>
      (* No vlan id passed in - go create one. *)
      ret (None, ctx)
  | Some id =>
      emit (Call (GetFabricVLAN (account_uuid req) id)) ;;;
      match getFabricVLAN napi (account_uuid req) id with
      | inl err =>
          log Warn [NapiError err] "napi getFabricVLAN error: %s" ;;;
          ret (Some (napiErrorWrap err "Unable to find fabric vlan"), ctx)
      | inr vlan =>
          ret (None,
               {| fabricVlanId := Some id; fabricVlan := Some vlan;
                  freeVlanIds := freeVlanIds ctx;
                  fabricNetwork := fabricNetwork ctx;
                  createdFabricVlan := createdFabricVlan ctx |})
      end
  end.

Definition findFreeFabricVlanId (napi : NAPI) (req : request) (ctx : context)
  : M (option error * context) :=
  match fabricVlan ctx with
  | Some _ => ret (None, ctx)
  | None =>
      emit (Call (ListFabricVLANs (account_uuid req))) ;;;
      log Debug [] "vlans: %j" ;;;
      match listFabricVLANs napi (account_uuid req) with
      | inl err =>
          ret (Some (napiErrorWrap err "Unable to list fabric vlans"), ctx)
      | inr vlans =>
          (* VLAN id's can range from 0 through to 1023. *)
          if (1024 <=? List.length vlans)%nat then
            (* No free vlans. *)
            ret (Some (DockerError "No free vlan ids"), ctx)
          else
            free <- lift (freeVlanIdsOf vlans) ;;
            log Debug [] "freeVlanIds: %j" ;;;
            ret (None,
                 {| fabricVlanId := fabricVlanId ctx;
                    fabricVlan := fabricVlan ctx;
                    freeVlanIds := Some free;
                    fabricNetwork := fabricNetwork ctx;
                    createdFabricVlan := createdFabricVlan ctx |})
      end
  end.

(** What [nextId] is called with: [true], the early abort marker, or an
    error. *)
Inductive nextIdArg :=
| EarlyAbort
| Failed (e : error).

(** The function [vasync.forEachPipeline] runs on each free id. *)
Definition tryVlanId (napi : NAPI) (req : request) (id : Z) (ctx : context)
  : M (option nextIdArg * context) :=
  emit (Call (CreateFabricVLAN (account_uuid req) id)) ;;;
  match createFabricVLAN napi (account_uuid req) id with
  | inr result =>
      ret (Some EarlyAbort, (* early abort on success *)
           {| fabricVlanId := Some id; fabricVlan := Some result;
              freeVlanIds := freeVlanIds ctx;
              fabricNetwork := fabricNetwork ctx;
              createdFabricVlan := true |})
  | inl err =>
      if String.eqb (message err) "VLAN ID is already in use" then
        ret (None, ctx)
      else
        ret (Some (Failed (napiErrorWrap err "Unable to create fabric vlan")),
             ctx)
  end.

Definition createFabricVlan (napi : NAPI) (req : request) (ctx : context)
  : M (option error * context) :=
  match fabricVlan ctx with
  | Some _ => ret (None, ctx)
  | None =>
      match freeVlanIds ctx with
      | None => throw (AssertionError "ctx.freeVlanIds")
      | Some ids =>
          if negb (0 <? List.length ids)%nat then
            throw (AssertionError "ctx.freeVlanIds.length > 0")
          else
            r <- forEachPipeline (tryVlanId napi req) ids ctx ;;
            let ctx' := snd r in
            match fst r with
            | Some EarlyAbort => ret (None, ctx')
            | Some (Failed e) => ret (Some e, ctx')
            | None =>
                if negb (createdFabricVlan ctx') then
                  ret (Some (DockerError
                         "No available VLAN for network creation"), ctx')
                else ret (None, ctx')
            end
      end
  end.

Definition createFabricNetworkStage (napi : NAPI) (req : request) (ctx : context)
  : M (option error * context) :=
  match fabricVlanId ctx with
  | None => throw (AssertionError "ctx.fabricVlanId")
  | Some vid =>
      let ipamConfig := IPAMConfig0 (body req) in
      let subnet := Subnet ipamConfig in
      (* Get the beginIP and endIP from the IPRange or Subnet. *)
      match createCIDR (orElse (IPRange ipamConfig) subnet) with
      | None => ret (Some (ValidationError "Invalid Subnet or IPRange"), ctx)
      | Some (first, last) =>
          let params :=
            {| fp_name := Name (body req);
               fp_provision_start_ip := first;
               fp_provision_end_ip := last;
               fp_subnet := subnet;
               fp_vlan_id := vid |} in
          log Debug [] "creating fabric network" ;;;
          emit (Call (CreateFabricNetwork (account_uuid req) vid params)) ;;;
          match createFabricNetwork napi (account_uuid req) vid params with
          | inl err =>
              ret (Some (napiErrorWrap err "Unable to create network"), ctx)
          | inr result =>
              ret (None,
                   {| fabricVlanId := fabricVlanId ctx;
                      fabricVlan := fabricVlan ctx;
                      freeVlanIds := freeVlanIds ctx;
                      fabricNetwork := Some result;
                      createdFabricVlan := createdFabricVlan ctx |})
          end
      end
  end.

(** The four stages given to [vasync.pipeline]. *)
Definition stages (napi : NAPI) (req : request) (vlanId : option Z)
  : list (context -> M (option error * context)) :=
  [lookupExistingFabricVlan napi req vlanId;
   findFreeFabricVlanId napi req;
   createFabricVlan napi req;
   createFabricNetworkStage napi req].

Definition removeFabricNetwork (napi : NAPI) (req : request) (ctx : context)
  : M unit :=
  match fabricNetwork ctx with
  | None => ret tt
  | Some net =>
      emit (Call (DeleteFabricNetwork (account_uuid req) (fabricVlanId ctx)
                    (n_uuid net))) ;;;
      match deleteFabricNetwork napi (account_uuid req) (fabricVlanId ctx)
              (n_uuid net) with
      | Some dErr =>
          log Warn [NapiError dErr]
            "Unable to delete newly created fabric network, deletion err: %s"
      | None => ret tt
      end
  end.

Definition removeFabricVLAN (napi : NAPI) (req : request) (ctx : context)
  : M unit :=
  if negb (createdFabricVlan ctx) then ret tt
  else
    emit (Call (DeleteFabricVLAN (account_uuid req) (fabricVlanId ctx))) ;;;
    match deleteFabricVLAN napi (account_uuid req) (fabricVlanId ctx) with
    | Some dErr =>
        log Warn [NapiError dErr]
          "Unable to delete newly created fabric vlan, deletion err: %s"
    | None => ret tt
    end.

(** The callback of the pipeline: the id of the new network, or the cleanup
    followed by the pipeline's error. *)
Definition pipelineDone (napi : NAPI) (req : request)
  (r : option error * context) : M (error + string) :=
  let ctx := snd r in
  match fst r with
  | None =>
      match fabricNetwork ctx with
      | None => throw (TypeError "Cannot read property 'uuid' of undefined")
      | Some net => ret (inr (networkUuidToDockerId (n_uuid net)))
      end
  | Some err =>
      log Error [err] "Unable to create docker network, err: %s" ;;;
      (* Cleanup by removing the created fabric network and fabric vlan. *)
      removeFabricNetwork napi req ctx ;;;
      removeFabricVLAN napi req ctx ;;;
      (* Cleanup done, callback with the original create network error. *)
      ret (inl err)
  end.

Definition createNetwork (napi : NAPI) (req : request) : M (error + string) :=
  match validateVlanLabel (vlanIdLabel (body req)) with
  | inl e => ret (inl e)
  | inr vlanId =>
      r <- pipeline (stages napi req vlanId) emptyContext ;;
      pipelineDone napi req r
  end.

(** ** napiNetworkToDockerNetwork, listNetworks, inspectNetwork *)

Definition ADMIN_NIC_TAG : string := "admin".

(** The docker network object; [Config] holds [Subnet] and [Gateway] of its
    one entry, and a missing property is [None]. *)
Record dockerNetwork := {
  Driver : string;
  Id : string;
  IPAM_Driver : string;
  NetName : string;
  Options : list (string * string);
  Scope : string;
  Config : option (string * string);
  Labels : option (list (string * string))
}.

(** [network.mtu] as a condition: a missing or zero mtu is falsy. *)
Definition mtuOption (mtu : option Z) : list (string * string) :=
  match mtu with
  | Some m =>
      if m =? 0 then []
      else [("com.docker.network.driver.mtu"%string, toString m)]
  | None => []
  end.

Definition napiNetworkToDockerNetwork (network : napiNetwork)
  : dockerNetwork :=
  let isNetworkPool :=
    match n_networks network with Some _ => true | None => false end in
  let scope :=
    (if isNetworkPool then "pool"
     else if n_fabric network then "overlay"
     else "external")%string in
  if isNetworkPool then
    {| Driver := "Triton"; Id := networkUuidToDockerId (n_uuid network);
       IPAM_Driver := "default"; NetName := n_name network; Options := [];
       Scope := scope; Config := None; Labels := None |}
  else
    {| Driver := "Triton"; Id := networkUuidToDockerId (n_uuid network);
       IPAM_Driver := "default"; NetName := n_name network;
       Options := mtuOption (n_mtu network);
       Scope := scope;
       Config := Some (n_subnet network, n_gateway network);
       Labels :=
         match n_vlan_id network with
         | Some v => Some [(TRITON_NETWORK_VLAN_ID, toString v)]
         | None => None
         end |}.

(** [{provisionable_by: accountUuid}] *)
Definition accountParams (accountUuid : string) : listParams :=
  {| p_name := None; p_uuid := None; p_provisionable_by := Some accountUuid |}.

(** The uuids recorded in [networksInPools]: the members of every pool, or a
    TypeError at a pool without a member array. *)
Fixpoint poolMembers (pools : list napiNetwork) : outcome (list string) :=
  match pools with
  | [] => Ret []
  | pool :: rest =>
      match n_networks pool with
      | None =>
          Throw (TypeError "Cannot read property 'forEach' of undefined")
      | Some members =>
          match poolMembers rest with
          | Ret l => Ret (members ++ l)
          | Throw e => Throw e
          end
      end
  end.

Definition inList (s : string) (l : list string) : bool :=
  existsb (String.eqb s) l.

(** The networks provisionable by the account: the pools, then the networks
    that are in no pool, never one with the admin nic tag.  The keys of
    [networksInPools] are uuids, so reading a key is a list membership. *)
Definition getNapiNetworksForAccount (napi : NAPI) (accountUuid : string)
  : M (error + list napiNetwork) :=
  emit (Call (ListNetworkPools (accountParams accountUuid))) ;;;
  let r := listNetworkPools napi (accountParams accountUuid) in
  match reply_err r with
  | Some err => ret (inl (NapiError err))
  | None =>
      match reply_res r with
      | None =>
          throw (TypeError "Cannot read property 'filter' of undefined")
      | Some pools =>
          (* Always skip admin network pools: *)
          let pools :=
            filter (fun pool =>
                      negb (String.eqb (n_nic_tag pool) ADMIN_NIC_TAG))
                   pools in
          networksInPools <- lift (poolMembers pools) ;;
          emit (Call (ListNetworks (accountParams accountUuid))) ;;;
          let r2 := listNetworks napi (accountParams accountUuid) in
          match reply_err r2 with
          | Some err2 => ret (inl (NapiError err2))
          | None =>
              match reply_res r2 with
              | None =>
                  throw
                    (TypeError "Cannot read property 'filter' of undefined")
              | Some nets =>
                  let nets :=
                    filter (fun net =>
                              if String.eqb (n_nic_tag net) ADMIN_NIC_TAG
                              then false
                              else if inList (n_uuid net) networksInPools
                              then false
                              else true)
                           nets in
                  let networks := (pools ++ nets)%list in
                  log Debug [] "getNapiNetworksForAccount" ;;;
                  ret (inr networks)
              end
          end
      end
  end.

(** [listNetworks(opts, callback)] of the module (the name [listNetworks] is
    the NAPI client's method here). *)
Definition listNetworksOfAccount (napi : NAPI) (accountUuid : string)
  : M (error + list dockerNetwork) :=
  r <- getNapiNetworksForAccount napi accountUuid ;;
  match r with
  | inl err => ret (inl err)
  | inr networks =>
      log Debug [] "listNetworks: %d networks found" ;;;
      (* Convert networks into the docker format. *)
      ret (inr (map napiNetworkToDockerNetwork networks))
  end.

Definition inspectNetwork (network : napiNetwork) : dockerNetwork :=
  napiNetworkToDockerNetwork network.

(** ** Conditions the statements below refer to *)

(** An id that is a valid prefix of a full docker id: shorter than 64
    characters, and what follows index 32 is a proper prefix of the 32
    characters before it. *)
Definition validPartialId (name : string) : bool :=
  (String.length name <? 64)%nat
  && prefix (substr_from name 32) (substr name 0 32)
  && (String.length (substr_from name 32)
      <? String.length (substr name 0 32))%nat.

(** A docker id cut after 63 characters: 32 characters and the first 31 of
    them again. *)
Definition partialId63 : string :=
  "0123456789abcdef0123456789abcdef0123456789abcdef0123456789abcde".

(** The ids of the vlan creations a trace attempts, in order. *)
Fixpoint vlanAttempts (t : list event) : list Z :=
  match t with
  | [] => []
  | Call (CreateFabricVLAN _ id) :: t' => id :: vlanAttempts t'
  | _ :: t' => vlanAttempts t'
  end.

(** The vlan ids of the fabric network creations a trace attempts. *)
Fixpoint networkAttempts (t : list event) : list Z :=
  match t with
  | [] => []
  | Call (CreateFabricNetwork _ id _) :: t' => id :: networkAttempts t'
  | _ :: t' => networkAttempts t'
  end.

(** The vlans a trace created: the ids of the creations NAPI accepted. *)
Fixpoint createdVlans (napi : NAPI) (t : list event) : list Z :=
  match t with
  | [] => []
  | Call (CreateFabricVLAN account id) :: t' =>
      match createFabricVLAN napi account id with
      | inr _ => id :: createdVlans napi t'
      | inl _ => createdVlans napi t'
      end
  | _ :: t' => createdVlans napi t'
  end.

(** The fabric networks a trace created: the uuids NAPI returned. *)
Fixpoint createdNetworks (napi : NAPI) (t : list event) : list string :=
  match t with
  | [] => []
  | Call (CreateFabricNetwork account id p) :: t' =>
      match createFabricNetwork napi account id p with
      | inr net => n_uuid net :: createdNetworks napi t'
      | inl _ => createdNetworks napi t'
      end
  | _ :: t' => createdNetworks napi t'
  end.

(** The vlan ids a trace asks NAPI to delete. *)
Fixpoint deletedVlans (t : list event) : list (option Z) :=
  match t with
  | [] => []
  | Call (DeleteFabricVLAN _ id) :: t' => id :: deletedVlans t'
  | _ :: t' => deletedVlans t'
  end.

(** The network uuids a trace asks NAPI to delete. *)
Fixpoint deletedNetworks (t : list event) : list string :=
  match t with
  | [] => []
  | Call (DeleteFabricNetwork _ _ uuid) :: t' => uuid :: deletedNetworks t'
  | _ :: t' => deletedNetworks t'
  end.

(** [err.message === 'VLAN ID is already in use'] on the reply to a vlan
    creation. *)
Definition conflict (r : napiError + napiVlan) : bool :=
  match r with
  | inl err => String.eqb (message err) "VLAN ID is already in use"
  | inr _ => false
  end.

(** What one search strategy of [getNetworksOrPools] comes to. *)
Inductive verdict :=
| Found (l : list napiNetwork)
| Broken (e : napiError)
| NotFound.

(** The verdict of a direct listing, read off its reply. *)
Definition directVerdict (r : listReply) : verdict :=
  match reply_res r with
  | Some [] => NotFound
  | res =>
      if realError (reply_err r) then
        match reply_err r with Some e => Broken e | None => NotFound end
      else
        match reply_err r, res with
        | None, Some l => Found l
        | _, _ => NotFound
        end
  end.

(** [true] when the filter asks for a prefix search the fallback can run:
    no name, and a uuid that ends in a star. *)
Definition prefixFilter (params : listParams) : bool :=
  negb (truthy (p_name params))
  && match p_uuid params with
     | Some uuid =>
         match String.get (String.length uuid - 1) uuid with
         | Some "*"%char => true
         | _ => false
         end
     | None => false
     end.

(** The uuid of a prefix filter without its star. *)
Definition prefixOf (params : listParams) : string :=
  match p_uuid params with
  | Some uuid => substring0 uuid (String.length uuid - 1)
  | None => ""
  end.

(** The verdict of a client-side prefix fallback, read off the reply to the
    unfiltered listing. *)
Definition fallbackVerdict (params : listParams) (r : listReply) : verdict :=
  if negb (prefixFilter params) then NotFound
  else
    match reply_res r with
    | Some [] => NotFound
    | res =>
        if realError (reply_err r) then
          match reply_err r with Some e => Broken e | None => NotFound end
        else
          match res with
          | Some l =>
              match filter (fun p =>
                              String.eqb (prefixOf params)
                                (substring0 (n_uuid p)
                                   (String.length (prefixOf params)))) l with
              | [] => NotFound
              | f => Found f
              end
          | None => NotFound
          end
    end.

(** The first verdict other than [NotFound] decides; an empty array when
    there is none. *)
Fixpoint firstDecisive (vs : list verdict) : searchReply :=
  match vs with
  | [] => (None, Some [])
  | Found l :: _ => (None, Some l)
  | Broken e :: _ => (Some e, None)
  | NotFound :: rest => firstDecisive rest
  end.

(** The filter of the unfiltered listing: only [provisionable_by] is kept. *)
Definition unfiltered (params : listParams) : listParams :=
  {| p_name := None; p_uuid := None;
     p_provisionable_by := p_provisionable_by params |}.

(** The four verdicts in the order the strategies run. *)
Definition verdicts (napi : NAPI) (params : listParams) : list verdict :=
  [directVerdict (listNetworks napi params);
   fallbackVerdict params (listNetworks napi (unfiltered params));
   directVerdict (listNetworkPools napi params);
   fallbackVerdict params (listNetworkPools napi (unfiltered params))].

(** The requests of the four strategies, in the order they run; a fallback
    issues its request only for a prefix filter. *)
Definition queries (params : listParams) : list (list call) :=
  [[ListNetworks params];
   if prefixFilter params then [ListNetworks (unfiltered params)] else [];
   [ListNetworkPools params];
   if prefixFilter params then [ListNetworkPools (unfiltered params)]
   else []].

(** The requests issued up to and including the first strategy whose
    verdict is not [NotFound]. *)
Fixpoint queriesUntilDecisive (vs : list verdict) (qs : list (list call))
  : list call :=
  match vs, qs with
  | NotFound :: vs', q :: qs' => (q ++ queriesUntilDecisive vs' qs')%list
  | _ :: _, q :: _ => q
  | _, _ => []
  end.

(** ** Invariants and conditions used by the proofs *)

(** The number of ids other than 1 among [0..id]. *)
Definition candidatesUpTo (id : Z) : Z := if id <=? 0 then id + 1 else id.

(** What the loop keeps about the list it builds: at most ten ids, each one
    passed already, none of them 1, in strictly increasing order. *)
Definition scanInvariant (id : Z) (free : list Z) : Prop :=
  (List.length free <= 10)%nat
  /\ (forall x, In x free -> 0 <= x <= id /\ x <> 1)
  /\ StronglySorted Z.lt free.

(** A direct listing that has no list names an error. *)
Definition directUsable (r : listReply) : Prop :=
  reply_res r = None -> reply_err r <> None.

(** An unfiltered listing that has no list names an error other than 404. *)
Definition fallbackUsable (r : listReply) : Prop :=
  reply_res r = None -> realError (reply_err r) = true.

(** The replies a search can read are usable. *)
Definition repliesUsable (napi : NAPI) (params : listParams) : Prop :=
  directUsable (listNetworks napi params)
  /\ directUsable (listNetworkPools napi params)
  /\ (prefixFilter params = true ->
      fallbackUsable (listNetworks napi (unfiltered params))
      /\ fallbackUsable (listNetworkPools napi (unfiltered params))).

(** How a strategy with a given verdict calls back. *)
Definition calledBack (v : verdict) (args : cbArgs searchResult) : Prop :=
  match v with
  | Found l =>
      args = (None, Some {| sr_err := None; sr_res := Some l |}) /\ l <> []
  | Broken e => args = (None, Some {| sr_err := Some e; sr_res := None |})
  | NotFound => exists e x, args = (Some e, x)
  end.

(** The trace of the creation attempts for the given ids. *)
Definition creations (account : string) (ids : list Z) : list event :=
  map (fun id => Call (CreateFabricVLAN account id)) ids.

(** What holds of the context and of the trace when the pipeline fails. *)
Definition failureState (napi : NAPI) (req : request) (vlanId : option Z)
  (ctx : context) (t : list event) : Prop :=
  fabricNetwork ctx = None
  /\ deletedVlans t = [] /\ deletedNetworks t = []
  /\ createdNetworks napi t = []
  /\ createdVlans napi t
     = (if createdFabricVlan ctx
        then match fabricVlanId ctx with Some id => [id] | None => [] end
        else [])
  /\ (createdFabricVlan ctx = true -> fabricVlanId ctx <> None)
  /\ (forall id v,
        vlanId = Some id ->
        getFabricVLAN napi (account_uuid req) id = inr v ->
        createdFabricVlan ctx = false).

(** A result object that names an error names one other than 404 and has no
    list. *)
Definition wellShaped (res : searchResult) : Prop :=
  match sr_err res with
  | Some e => realError (Some e) = true /\ sr_res res = None
  | None => True
  end.

(** Operations with no error and no match leave the search undecided. *)
Definition noMatch (op : operation) : Prop :=
  op_err op = None /\ op_result op = Some [].

(** The position of the scan in an ascending array: the entries before
    [takenIdx] are at most [id], the entries from [takenIdx] on are above. *)
Definition scanPosition (taken : list Z) (id : Z) (takenIdx : nat) : Prop :=
  (forall j t, (j < takenIdx)%nat -> nth_error taken j = Some t -> t <= id)
  /\ (forall j t,
        (takenIdx <= j)%nat -> nth_error taken j = Some t -> id < t).

(** ** Sample services and requests *)

Definition err500 : napiError :=
  {| statusCode := Some 500; message := "Internal Server Error" |}.

Definition err404 : napiError :=
  {| statusCode := Some 404; message := "Not Found" |}.

Definition inUse : napiError :=
  {| statusCode := Some 422; message := "VLAN ID is already in use" |}.

Definition webNet : napiNetwork :=
  {| n_uuid := "0b0e4a3c-5e6f-4c1d-9a77-2f1e3d4c5b6a"; n_name := "web";
     n_nic_tag := "external"; n_networks := None; n_fabric := true;
     n_subnet := "10.0.0.0/24"; n_gateway := "10.0.0.1";
     n_mtu := Some 1400; n_vlan_id := Some 4 |}.

Definition dbNet : napiNetwork :=
  {| n_uuid := "0b0e4a3c-77aa-4c1d-9a77-2f1e3d4c5b6a"; n_name := "db";
     n_nic_tag := "external"; n_networks := None; n_fabric := false;
     n_subnet := "10.0.1.0/24"; n_gateway := "10.0.1.1";
     n_mtu := None; n_vlan_id := None |}.

Definition webPool : napiNetwork :=
  {| n_uuid := "5f1c2d3e-0000-4c1d-9a77-2f1e3d4c5b6a"; n_name := "web";
     n_nic_tag := "external";
     n_networks := Some ["0b0e4a3c-77aa-4c1d-9a77-2f1e3d4c5b6a"%string];
     n_fabric := false; n_subnet := ""; n_gateway := "";
     n_mtu := None; n_vlan_id := None |}.

Definition listed (l : list napiNetwork) : listReply :=
  {| reply_err := None; reply_res := Some l |}.

Definition failed (e : napiError) : listReply :=
  {| reply_err := Some e; reply_res := None |}.

(** A service with no networks, no pools and no vlans, that accepts every
    creation and deletion. *)
Definition emptyNapi : NAPI :=
  {| listNetworks := fun _ => listed [];
     listNetworkPools := fun _ => listed [];
     getFabricVLAN := fun _ id => inr {| vlan_id := id |};
     listFabricVLANs := fun _ => inr [];
     createFabricVLAN := fun _ id => inr {| vlan_id := id |};
     createFabricNetwork := fun _ _ _ => inr webNet;
     deleteFabricNetwork := fun _ _ _ => None;
     deleteFabricVLAN := fun _ _ => None |}.

(** The network listing is down; the pools hold one pool. *)
Definition netsDownNapi : NAPI :=
  {| listNetworks := fun _ => failed err500;
     listNetworkPools := fun _ => listed [webPool];
     getFabricVLAN := getFabricVLAN emptyNapi;
     listFabricVLANs := listFabricVLANs emptyNapi;
     createFabricVLAN := createFabricVLAN emptyNapi;
     createFabricNetwork := createFabricNetwork emptyNapi;
     deleteFabricNetwork := deleteFabricNetwork emptyNapi;
     deleteFabricVLAN := deleteFabricVLAN emptyNapi |}.

(** Searches by uuid, exact or by prefix, fail with a 500; a search by name
    finds one network. *)
Definition idSearchDownNapi : NAPI :=
  {| listNetworks := fun p =>
       if truthy (p_name p) then listed [webNet] else failed err500;
     listNetworkPools := fun _ => listed [];
     getFabricVLAN := getFabricVLAN emptyNapi;
     listFabricVLANs := listFabricVLANs emptyNapi;
     createFabricVLAN := createFabricVLAN emptyNapi;
     createFabricNetwork := createFabricNetwork emptyNapi;
     deleteFabricNetwork := deleteFabricNetwork emptyNapi;
     deleteFabricVLAN := deleteFabricVLAN emptyNapi |}.

(** Every listing of networks returns the same two networks. *)
Definition twoNetsNapi : NAPI :=
  {| listNetworks := fun _ => listed [webNet; dbNet];
     listNetworkPools := fun _ => listed [];
     getFabricVLAN := getFabricVLAN emptyNapi;
     listFabricVLANs := listFabricVLANs emptyNapi;
     createFabricVLAN := createFabricVLAN emptyNapi;
     createFabricNetwork := createFabricNetwork emptyNapi;
     deleteFabricNetwork := deleteFabricNetwork emptyNapi;
     deleteFabricVLAN := deleteFabricVLAN emptyNapi |}.

(** The account holds the given vlans; creating vlan 4 meets the conflict,
    any other creation is accepted; networks are refused and deletions
    fail. *)
Definition contendedNapi (taken : list Z) : NAPI :=
  {| listNetworks := fun _ => listed [];
     listNetworkPools := fun _ => listed [];
     getFabricVLAN := fun _ id => inr {| vlan_id := id |};
     listFabricVLANs := fun _ => inr (vlansOf taken);
     createFabricVLAN := fun _ id =>
       if id =? 4 then inl inUse else inr {| vlan_id := id |};
     createFabricNetwork := fun _ _ _ => inl err500;
     deleteFabricNetwork := fun _ _ _ => Some err500;
     deleteFabricVLAN := fun _ _ => Some err500 |}.

(** As [contendedNapi], but the creation of vlan 5 fails with a 500. *)
Definition brokenNapi (taken : list Z) : NAPI :=
  {| listNetworks := fun _ => listed [];
     listNetworkPools := fun _ => listed [];
     getFabricVLAN := fun _ id => inr {| vlan_id := id |};
     listFabricVLANs := fun _ => inr (vlansOf taken);
     createFabricVLAN := fun _ id =>
       if id =? 4 then inl inUse else inl err500;
     createFabricNetwork := fun _ _ _ => inl err500;
     deleteFabricNetwork := fun _ _ _ => Some err500;
     deleteFabricVLAN := fun _ _ => Some err500 |}.

Definition nameFilter (name account : string) : listParams :=
  {| p_name := Some name; p_uuid := None;
     p_provisionable_by := Some account |}.

Definition uuidFilter (uuid account : string) : listParams :=
  {| p_name := None; p_uuid := Some uuid;
     p_provisionable_by := Some account |}.

Definition sampleAccount : string := "930896af-bf8c-48d4-885c-6573a94b1853".

(** A full docker id: 32 characters, twice. *)
Definition fullId : string :=
  "0123456789abcdef0123456789abcdef0123456789abcdef0123456789abcdef".

(** Stand-ins for the helpers the functions are given: ids are passed
    through, no label parses, every subnet is 10.0.0.0/24. *)
Definition plainId (s : string) : string := s.
Definition noNumber (s : string) : option Z := None.
Definition sampleCIDR (s : string) : option (string * string) :=
  Some ("10.0.0.1"%string, "10.0.0.254"%string).


(** A [Number] that reads the label "7" and nothing else. *)
Definition sevenOnly (s : string) : option Z :=
  if String.eqb s "7" then Some 7 else None.

(** The account holds the given vlans and every vlan creation meets the
    conflict. *)
Definition allTakenNapi (taken : list Z) : NAPI :=
  {| listNetworks := fun _ => listed [];
     listNetworkPools := fun _ => listed [];
     getFabricVLAN := fun _ id => inr {| vlan_id := id |};
     listFabricVLANs := fun _ => inr (vlansOf taken);
     createFabricVLAN := fun _ _ => inl inUse;
     createFabricNetwork := fun _ _ _ => inl err500;
     deleteFabricNetwork := fun _ _ _ => Some err500;
     deleteFabricVLAN := fun _ _ => Some err500 |}.

(** A request for a network named [web] on 10.0.0.0/24, with the given
    label. *)
Definition sampleRequest (l : labelValue) : request :=
  {| account_uuid := sampleAccount;
     body := {| Name := "web"; vlanIdLabel := l;
                IPAMConfig0 := {| Subnet := "10.0.0.0/24";
                                  IPRange := None |} |} |}.

(** * Properties *)

(** ** The free vlan id scan *)

Lemma sortInsert_length (x : Z) (l : list Z) :
  List.length (sortInsert x l) = S (List.length l).
Proof.
  induction l as [|y l IH]; simpl; [reflexivity|].
  destruct (String.leb (toString x) (toString y)); simpl; congruence.
Qed.

Lemma sort_length (l : list Z) : List.length (sort l) = List.length l.
Proof.
  induction l as [|x l IH]; simpl; [reflexivity|].
  rewrite sortInsert_length; congruence.
Qed.

(** The duplicate-skipping loop returns an index between its start and the
    end of the array, and its assertion holds, on arrays shorter than 1024. *)
Lemma skipDuplicates_ok (taken : list Z) (id : Z) :
  (List.length taken < 1024)%nat ->
  forall n idx,
    (idx <= List.length taken)%nat ->
    (List.length taken - idx <= n)%nat ->
    exists idx',
      skipDuplicates n taken id idx = Ret idx'
      /\ (idx <= idx' <= List.length taken)%nat.
Proof.
  intros Hlen n; induction n as [|n IH]; intros idx Hidx Hn.
  - assert (idx = List.length taken) by lia; subst idx.
    exists (List.length taken); split; [|lia].
    destruct taken as [|t taken]; simpl; [reflexivity|].
    assert (E : nth_error taken (List.length taken) = None)
      by (apply nth_error_None; lia).
    rewrite E; reflexivity.
  - simpl. destruct (nth_error taken idx) as [t|] eqn:E.
    + assert (idx < List.length taken)%nat
        by (apply nth_error_Some; congruence).
      destruct (id =? t).
      * assert (Hlt : (idx <? 1024)%nat = true) by (apply Nat.ltb_lt; lia).
        rewrite Hlt.
        destruct (IH (S idx)) as [idx' [H1 H2]]; [lia|lia|].
        exists idx'; split; [exact H1|lia].
      * exists idx; split; [reflexivity|lia].
    + exists idx; split; [reflexivity|lia].
Qed.

Lemma freeVlanIdsOf_unfold (vlans : list napiVlan) :
  freeVlanIdsOf vlans
  = scanLoop scanBound (sort (map vlan_id vlans)) (-1) 0 [].
Proof. unfold freeVlanIdsOf, scanFreeVlanIds. reflexivity. Qed.

(** While no free id has been collected, every candidate passed so far has
    consumed a taken id; so with fewer than 1024 taken ids the loop cannot
    end empty-handed. *)
Lemma scanLoop_nonempty (taken : list Z) :
  (List.length taken < 1024)%nat ->
  forall n id takenIdx free,
    -1 <= id <= 1024 ->
    1024 - id <= Z.of_nat n ->
    (takenIdx <= List.length taken)%nat ->
    (free <> [] \/ candidatesUpTo id <= Z.of_nat takenIdx) ->
    exists r, scanLoop n taken id takenIdx free = Ret r /\ r <> [].
Proof.
  intros Hlen n; induction n as [|n IH]; intros id idx free Hid Hn Hidx Hinv.
  - assert (id = 1024) by lia; subst id. simpl.
    exists free; split; [reflexivity|].
    destruct Hinv as [H|H]; [exact H|]. unfold candidatesUpTo in H; simpl in H; lia.
  - cbn [scanLoop].
    destruct ((id <? 1024) && (List.length free <? 10)%nat) eqn:Hc.
    + apply andb_prop in Hc as [Hc1 Hc2]. apply Z.ltb_lt in Hc1.
      destruct (id + 1 =? 1) eqn:H1.
      * apply Z.eqb_eq in H1. apply IH; try lia.
        destruct Hinv as [H|H]; [left; exact H|right].
        unfold candidatesUpTo in *.
        destruct (id <=? 0) eqn:E1; destruct (id + 1 <=? 0) eqn:E2; lia.
      * apply Z.eqb_neq in H1.
        assert (Hpush : forall f, exists r,
                  scanLoop n taken (id + 1) idx (f ++ [id + 1]) = Ret r
                  /\ r <> []).
        { intro f. apply IH; try lia. left. destruct f; discriminate. }
        destruct (nth_error taken idx) as [t|] eqn:E; [|apply Hpush].
        destruct (id + 1 =? t); [|apply Hpush].
        assert (idx < List.length taken)%nat
          by (apply nth_error_Some; congruence).
        destruct (skipDuplicates_ok taken (id + 1) Hlen (List.length taken)
                    (S idx)) as [idx' [Hs Hb]]; [lia|lia|].
        rewrite Hs. apply IH; try lia.
        destruct Hinv as [H'|H']; [left; exact H'|right].
        unfold candidatesUpTo in *.
        destruct (id <=? 0) eqn:E1; destruct (id + 1 <=? 0) eqn:E2; lia.
    + exists free; split; [reflexivity|].
      destruct Hinv as [H|H]; [exact H|].
      apply andb_false_iff in Hc as [Hc|Hc].
      * apply Z.ltb_ge in Hc. unfold candidatesUpTo in H.
        destruct (id <=? 0) eqn:E1; lia.
      * apply Nat.ltb_ge in Hc. destruct free; simpl in Hc; [lia|discriminate].
Qed.

(** The scan of fewer than 1024 vlans returns, and returns candidates. *)
Lemma freeVlanIdsOf_returns (vlans : list napiVlan) :
  (List.length vlans < 1024)%nat ->
  exists free,
    freeVlanIdsOf vlans = Ret free
    /\ (0 <? List.length free)%nat = true.
Proof.
  intro Hlen. rewrite freeVlanIdsOf_unfold.
  destruct (scanLoop_nonempty (sort (map vlan_id vlans))
              ltac:(rewrite sort_length, length_map; exact Hlen)
              scanBound (-1) 0%nat [])
    as [r [Hr Hne]]; try (unfold scanBound; lia).
  - right. unfold candidatesUpTo. simpl. lia.
  - exists r. split; [exact Hr|]. destruct r; [congruence|reflexivity].
Qed.

(** C10. For every vlan list that passes the exhaustion guard (fewer than
    1024 allocations) the scan returns a list of candidates that is not
    empty, so the check [ctx.freeVlanIds.length > 0] holds. *)
Theorem free_vlan_ids_never_empty (vlans : list napiVlan) :
  (List.length vlans < 1024)%nat ->
  exists free,
    freeVlanIdsOf vlans = Ret free
    /\ (0 <? List.length free)%nat = true.
Proof.
  intro Hlen.
  destruct (scanLoop_nonempty (sort (map vlan_id vlans))) with
    (n := scanBound) (id := -1) (takenIdx := 0%nat) (free := @nil Z)
    as [r [Hr Hne]].
  - rewrite sort_length, length_map; exact Hlen.
  - lia.
  - unfold scanBound; lia.
  - lia.
  - right; unfold candidatesUpTo; simpl; lia.
  - exists r; split; [rewrite freeVlanIdsOf_unfold; exact Hr|].
    destruct r; [congruence|reflexivity].
Qed.

Lemma sorted_snoc (l : list Z) (y : Z) :
  StronglySorted Z.lt l ->
  (forall x, In x l -> x < y) ->
  StronglySorted Z.lt (l ++ [y]).
Proof.
  induction 1 as [|a l Hs IH Ha]; intro Hy; simpl.
  - constructor; constructor.
  - constructor.
    + apply IH. intros x Hx. apply Hy. right; exact Hx.
    + apply Forall_app; split; [exact Ha|].
      constructor; [|constructor]. apply Hy. left; reflexivity.
Qed.

Lemma scanLoop_invariant (taken : list Z) :
  forall n id takenIdx free r,
    -1 <= id <= 1024 ->
    scanInvariant id free ->
    scanLoop n taken id takenIdx free = Ret r ->
    scanInvariant 1024 r.
Proof.
  intro n; induction n as [|n IH]; intros id idx free r Hid Hinv Hr.
  - simpl in Hr.
    destruct ((id <? 1024) && (List.length free <? 10)%nat);
      [discriminate|].
    injection Hr as <-. destruct Hinv as [H1 [H2 H3]].
    split; [exact H1|]. split; [|exact H3].
    intros x Hx. destruct (H2 x Hx). lia.
  - cbn [scanLoop] in Hr.
    destruct ((id <? 1024) && (List.length free <? 10)%nat) eqn:Hc.
    + apply andb_prop in Hc as [Hc1 Hc2].
      apply Z.ltb_lt in Hc1. apply Nat.ltb_lt in Hc2.
      destruct Hinv as [H1 [H2 H3]].
      assert (Hkeep : scanInvariant (id + 1) free).
      { split; [exact H1|]. split; [|exact H3].
        intros x Hx. destruct (H2 x Hx). lia. }
      destruct (id + 1 =? 1) eqn:E1.
      * eapply IH; [| exact Hkeep | exact Hr]. lia.
      * apply Z.eqb_neq in E1.
        assert (Hpush : scanInvariant (id + 1) (free ++ [id + 1])).
        { split; [rewrite length_app; simpl; lia|]. split.
          - intros x Hx. apply in_app_or in Hx as [Hx|[<-|[]]].
            + destruct (H2 x Hx). lia.
            + lia.
          - apply sorted_snoc; [exact H3|].
            intros x Hx. destruct (H2 x Hx). lia. }
        destruct (nth_error taken idx) as [t|];
          [|eapply IH; [| exact Hpush | exact Hr]; lia].
        destruct (id + 1 =? t);
          [|eapply IH; [| exact Hpush | exact Hr]; lia].
        destruct (skipDuplicates (List.length taken) taken (id + 1) (S idx));
          [|discriminate].
        eapply IH; [| exact Hkeep | exact Hr]. lia.
    + injection Hr as <-. destruct Hinv as [H1 [H2 H3]].
      split; [exact H1|]. split; [|exact H3].
      intros x Hx. destruct (H2 x Hx). lia.
Qed.

Lemma freeVlanIdsOf_invariant (vlans : list napiVlan) (free : list Z) :
  freeVlanIdsOf vlans = Ret free -> scanInvariant 1024 free.
Proof.
  intro H. rewrite freeVlanIdsOf_unfold in H.
  assert (B : scanInvariant (-1) []).
  { split; [apply Nat.le_0_l|]. split; [intros x []|constructor]. }
  assert (A : -1 <= -1 <= 1024) by lia.
  exact (scanLoop_invariant _ _ _ _ _ _ A B H).
Qed.

(** C3 (amended). With taken ids 0, 2, 3 and 1023 the computed list has ten
    candidates and the reserved id 1 is not among them; when the scan walks
    these taken ids in ascending numeric order, the candidates are exactly
    4 to 13. *)
Theorem free_vlan_ids_example :
  (exists free,
     freeVlanIdsOf (vlansOf [0; 2; 3; 1023]) = Ret free
     /\ List.length free = 10%nat /\ ~ In 1 free)
  /\ scanFreeVlanIds [0; 2; 3; 1023]
     = Ret [4; 5; 6; 7; 8; 9; 10; 11; 12; 13].
Proof.
  split; [|vm_compute; reflexivity].
  eexists; split; [vm_compute; reflexivity|].
  split; [reflexivity|].
  simpl; intros H; repeat destruct H as [H|H]; try discriminate H; exact H.
Qed.

(** C3, as stated: the computed list for taken ids 0, 2, 3 and 1023 is not
    1, 4, 5, ..., 12. *)
Lemma free_vlan_ids_example_not_as_claimed :
  freeVlanIdsOf (vlansOf [0; 2; 3; 1023])
  <> Ret [1; 4; 5; 6; 7; 8; 9; 10; 11; 12].
Proof. vm_compute. discriminate. Qed.

(** C4. With taken ids 0, 2, 3 and 1023 the array is ordered as 0, 1023, 2,
    3 and the scan offers 2 and 3, which are taken. *)
Theorem free_vlan_ids_offers_taken_id :
  sort (map vlan_id (vlansOf [0; 2; 3; 1023])) = [0; 1023; 2; 3]
  /\ freeVlanIdsOf (vlansOf [0; 2; 3; 1023])
     = Ret [2; 3; 4; 5; 6; 7; 8; 9; 10; 11]
  /\ In 2 [0; 2; 3; 1023].
Proof.
  split; [vm_compute; reflexivity|].
  split; [vm_compute; reflexivity|].
  simpl; tauto.
Qed.

(** ** getNetworksOrPools *)

Lemma directCb_calledBack (r : listReply) :
  directUsable r -> calledBack (directVerdict r) (directCb r).
Proof.
  unfold directUsable, directVerdict, directCb.
  destruct r as [err res]; simpl; intro Hu.
  destruct res as [[|x l]|]; simpl.
  - eexists; eexists; reflexivity.
  - destruct (realError err) eqn:E.
    + destruct err as [e|]; [reflexivity|discriminate].
    + destruct err as [e|]; simpl.
      * eexists; eexists; reflexivity.
      * split; [reflexivity|discriminate].
  - destruct (realError err) eqn:E.
    + destruct err as [e|]; [reflexivity|discriminate].
    + destruct err as [e|]; simpl.
      * eexists; eexists; reflexivity.
      * exfalso; apply Hu; reflexivity.
Qed.

Lemma filteredSearch_calledBack (params : listParams)
  (request : listParams -> call) (reply : listParams -> listReply)
  (notFound : string) :
  truthy (p_name params) || truthy (p_uuid params) = true ->
  (prefixFilter params = true -> fallbackUsable (reply (unfiltered params))) ->
  exists args t,
    filteredSearch params request reply notFound = (Ret args, t)
    /\ calledBack (fallbackVerdict params (reply (unfiltered params))) args
    /\ calls t = (if prefixFilter params
                  then [request (unfiltered params)] else []).
Proof.
  unfold filteredSearch, fallbackVerdict, prefixFilter, prefixOf,
    fallbackUsable.
  intros Ht Hu.
  destruct (truthy (p_name params)) eqn:En; simpl.
  { eexists; eexists; split; [reflexivity|].
    split; [eexists; eexists; reflexivity|reflexivity]. }
  simpl in Ht, Hu.
  destruct (p_uuid params) as [uuid|] eqn:Eu; [|discriminate].
  fold (unfiltered params).
  destruct (String.get (String.length uuid - 1) uuid) as [c|] eqn:Eg.
  2:{ eexists; eexists; split; [reflexivity|].
      split; [eexists; eexists; reflexivity|reflexivity]. }
  destruct c as [b0 b1 b2 b3 b4 b5 b6 b7].
  destruct b0, b1, b2, b3, b4, b5, b6, b7;
    try (eexists; eexists; split; [reflexivity|];
         split; [eexists; eexists; reflexivity|reflexivity]).
  simpl in Hu |- *. specialize (Hu eq_refl).
  unfold filteredCb.
  destruct (reply (unfiltered params)) as [err res]; simpl in Hu |- *.
  destruct res as [[|x l]|]; simpl.
  - eexists; eexists; split; [reflexivity|].
    split; [eexists; eexists; reflexivity|reflexivity].
  - destruct (realError err) eqn:E.
    + destruct err as [e|]; [|discriminate].
      eexists; eexists; split; [reflexivity|]. split; reflexivity.
    + match goal with
      | |- context [if ?b then x :: _ else _] => destruct b
      end; simpl.
      * eexists; eexists; split; [reflexivity|].
        split; [split; [reflexivity|discriminate]|reflexivity].
      * match goal with
        | |- context [filter ?f l] => destruct (filter f l) as [|y f']
        end; simpl.
        -- eexists; eexists; split; [reflexivity|].
           split; [eexists; eexists; reflexivity|reflexivity].
        -- eexists; eexists; split; [reflexivity|].
           split; [split; [reflexivity|discriminate]|reflexivity].
  - rewrite (Hu eq_refl). destruct err as [e|]; [|discriminate Hu; reflexivity].
    eexists; eexists; split; [reflexivity|]. split; reflexivity.
Qed.

Lemma bind_ret {A B} (a : A) (t : list event) (f : A -> M B) :
  bind (Ret a, t) f = (fst (f a), (t ++ snd (f a))%list).
Proof. unfold bind. destruct (f a); reflexivity. Qed.

Lemma bind_throw {A B} (e : exn) (t : list event) (f : A -> M B) :
  bind (Throw e, t) f = (Throw e, t).
Proof. reflexivity. Qed.

Lemma calls_app (t1 t2 : list event) :
  calls (t1 ++ t2) = (calls t1 ++ calls t2)%list.
Proof.
  induction t1 as [|[c|l e m] t1 IH]; simpl; [reflexivity| |exact IH].
  rewrite IH; reflexivity.
Qed.

(** C9 (amended). A search returns the outcome of the first strategy, in the
    order networks direct, networks prefix fallback, pools direct, pools
    prefix fallback, that found a non-empty list or failed with an error
    other than 404: the list in the first case, the error in the second, and
    no later strategy is queried.  When every strategy comes to not found,
    it returns an empty array and no error. *)
Theorem search_returns_first_decisive (napi : NAPI) (params : listParams) :
  truthy (p_name params) || truthy (p_uuid params) = true ->
  repliesUsable napi params ->
  value (getNetworksOrPools napi params)
  = Ret (firstDecisive (verdicts napi params))
  /\ calls (trace (getNetworksOrPools napi params))
     = queriesUntilDecisive (verdicts napi params) (queries params).
Proof.
  intros Ht [Hn [Hp Hf]].
  unfold getNetworksOrPools, verdicts, queries. rewrite Ht. cbn [negb].
  pose proof (directCb_calledBack _ Hn) as C1.
  pose proof (directCb_calledBack _ Hp) as C3.
  destruct (filteredSearch_calledBack params ListNetworks
              (listNetworks napi) "Network not found" Ht
              (fun H => proj1 (Hf H))) as [a2 [t2 [E2 [C2 T2]]]].
  destruct (filteredSearch_calledBack params ListNetworkPools
              (listNetworkPools napi) "Network pool not found" Ht
              (fun H => proj2 (Hf H))) as [a4 [t4 [E4 [C4 T4]]]].
  unfold listFiltNets, listFiltNetPools, listNets, listNetPools.
  rewrite E2, E4. clear E2 E4.
  unfold value, trace.
  assert (N : forall t, calls (t ++ []) = calls t)
    by (intro t; rewrite app_nil_r; reflexivity).
  destruct (directVerdict (listNetworks napi params)) as [l1|e1|].
  { destruct C1 as [-> _]. split; reflexivity. }
  { rewrite C1. split; reflexivity. }
  destruct C1 as [e1 [x1 ->]].
  destruct (fallbackVerdict params (listNetworks napi (unfiltered params)))
    as [l2|e2|].
  { destruct C2 as [-> _]. cbn. rewrite ?N, ?calls_app, T2.
    split; reflexivity. }
  { rewrite C2. cbn. rewrite ?N, ?calls_app, T2. split; reflexivity. }
  destruct C2 as [e2 [x2 ->]].
  destruct (directVerdict (listNetworkPools napi params)) as [l3|e3|].
  { destruct C3 as [-> _]. cbn. rewrite ?N, ?calls_app, T2.
    split; reflexivity. }
  { rewrite C3. cbn. rewrite ?N, ?calls_app, T2. split; reflexivity. }
  destruct C3 as [e3 [x3 ->]].
  destruct (fallbackVerdict params
              (listNetworkPools napi (unfiltered params))) as [l4|e4|].
  { destruct C4 as [-> _]. cbn. rewrite ?N, ?calls_app, T2. cbn.
    rewrite ?N, ?calls_app, T4. split; reflexivity. }
  { rewrite C4. cbn. rewrite ?N, ?calls_app, T2. cbn.
    rewrite ?N, ?calls_app, T4. split; reflexivity. }
  destruct C4 as [e4 [x4 ->]].
  cbn. rewrite ?N, ?calls_app, T2. cbn. rewrite ?N, ?calls_app, T4. cbn.
  rewrite ?app_nil_r. split; reflexivity.
Qed.

(** ** findNetworkOrPoolByNameOrId *)

Lemma bestMatchFrom_error (name : string) (acc : match_) (e : error)
  (ops : list operation) :
  m_err acc = Some e -> bestMatchFrom name acc ops = Ret acc.
Proof.
  intro H; induction ops as [|op ops IH]; simpl; [reflexivity|].
  unfold preferStep; rewrite H; exact IH.
Qed.

Lemma bestMatchFrom_result (name : string) (acc : match_) (net : napiNetwork)
  (ops : list operation) :
  m_err acc = None -> m_result acc = Some net ->
  bestMatchFrom name acc ops = Ret acc.
Proof.
  intros H1 H2; induction ops as [|op ops IH]; simpl; [reflexivity|].
  unfold preferStep; rewrite H1, H2; exact IH.
Qed.

Lemma bestMatchFrom_cons (name : string) (acc : match_) (op : operation)
  (ops : list operation) :
  bestMatchFrom name acc (op :: ops)
  = match preferStep name acc op with
    | Ret acc' => bestMatchFrom name acc' ops
    | Throw e => Throw e
    end.
Proof. reflexivity. Qed.

(** When the three searches return, the resolver reduces their operations in
    the order exact id, name, partial id. *)
Lemma resolver_reduces (napi : NAPI) (name account : string)
  (op1 op2 op3 : operation) :
  value (byExactId napi name account) = Ret op1 ->
  value (byName napi name account) = Ret op2 ->
  value (byDockerId napi name account) = Ret op3 ->
  value (findNetworkOrPoolByNameOrId napi name account)
  = value (listedNetworks name [op1; op2; op3])
  /\ trace (findNetworkOrPoolByNameOrId napi name account)
     = (trace (byExactId napi name account)
        ++ trace (byName napi name account)
        ++ trace (byDockerId napi name account)
        ++ trace (listedNetworks name [op1; op2; op3]))%list.
Proof.
  unfold findNetworkOrPoolByNameOrId, value, trace.
  destruct (byExactId napi name account) as [o1 t1].
  destruct (byName napi name account) as [o2 t2].
  destruct (byDockerId napi name account) as [o3 t3].
  cbn [fst snd]. intros -> -> ->.
  match goal with
  | |- context [parallelOps ?fs] =>
      assert (P : parallelOps fs
                  = (Ret [op1; op2; op3], (t1 ++ t2 ++ t3)%list))
        by (cbn; rewrite !app_nil_r; reflexivity)
  end.
  rewrite P, bind_ret. simpl. rewrite <- !app_assoc. split; reflexivity.
Qed.

(** C7. When the exact-id search returns two or more matches, the resolver
    fails with the ambiguous-id error for the identifier it was given,
    whatever the name search and the partial-id search returned. *)
Theorem ambiguous_exact_id_fails (napi : NAPI) (name account : string)
  (op1 op2 op3 : operation) (l : list napiNetwork) :
  value (byExactId napi name account) = Ret op1 ->
  value (byName napi name account) = Ret op2 ->
  value (byDockerId napi name account) = Ret op3 ->
  op_err op1 = None ->
  op_result op1 = Some l ->
  (2 <= List.length l)%nat ->
  value (findNetworkOrPoolByNameOrId napi name account)
  = Ret (inl (AmbiguousDockerNetworkIdPrefixError name)).
Proof.
  intros H1 H2 H3 He Hr Hl.
  rewrite (proj1 (resolver_reduces napi name account op1 op2 op3 H1 H2 H3)).
  unfold listedNetworks, bestMatchOf. rewrite bestMatchFrom_cons.
  unfold preferStep. cbn [m_err m_result]. rewrite He, Hr.
  destruct l as [|a [|b l]]; simpl in Hl; try lia.
  rewrite (bestMatchFrom_error name _
             (AmbiguousDockerNetworkIdPrefixError name)); [|reflexivity].
  reflexivity.
Qed.

(** C1 (amended). When the exact-id search fails with an error, the
    resolver hands that error to its caller and logs it as an error,
    whatever the name search returned.  An error of a search is logged as
    a non-critical warning and a single match returned only when the failed
    search is lower in preference than the one that matched: with no match
    and no error from the exact-id search, one match from the name search
    and an error from the partial-id search, the resolver returns the
    match. *)
Theorem preferred_outcome_wins (napi : NAPI) (name account : string)
  (op1 op2 op3 : operation) :
  value (byExactId napi name account) = Ret op1 ->
  value (byName napi name account) = Ret op2 ->
  value (byDockerId napi name account) = Ret op3 ->
  (forall e1,
     op_err op1 = Some e1 ->
     value (findNetworkOrPoolByNameOrId napi name account) = Ret (inl e1)
     /\ In (Log Error [e1]
              ("Networks: Error finding network to match " ++ name))
           (trace (findNetworkOrPoolByNameOrId napi name account)))
  /\ (forall net e3,
        op_err op1 = None -> op_result op1 = Some [] ->
        op_err op2 = None -> op_result op2 = Some [net] ->
        op_err op3 = Some e3 ->
        value (findNetworkOrPoolByNameOrId napi name account)
        = Ret (inr net)
        /\ In (Log Warn [e3] "Networks: non-critical error searching NAPI")
              (trace (findNetworkOrPoolByNameOrId napi name account))).
Proof.
  intros H1 H2 H3.
  destruct (resolver_reduces napi name account op1 op2 op3 H1 H2 H3)
    as [Hv Ht].
  rewrite Hv, Ht. split.
  - intros e1 He.
    assert (E : listedNetworks name [op1; op2; op3]
                = (Ret (inl e1),
                   [Log Error [e1]
                      ("Networks: Error finding network to match "
                       ++ name)])).
    { unfold listedNetworks, bestMatchOf. rewrite bestMatchFrom_cons.
      unfold preferStep. cbn [m_err m_result]. rewrite He.
      rewrite (bestMatchFrom_error name _ e1); [|reflexivity].
      reflexivity. }
    rewrite E. split; [reflexivity|].
    rewrite !in_app_iff. right; right; right. left; reflexivity.
  - intros net e3 He1 Hr1 He2 Hr2 He3.
    assert (E : listedNetworks name [op1; op2; op3]
                = (Ret (inr net),
                   [Log Warn [e3]
                      "Networks: non-critical error searching NAPI";
                    Log Debug []
                      ("Networks: chose " ++ n_name net ++ "/"
                       ++ n_uuid net)])).
    { unfold listedNetworks, bestMatchOf. rewrite bestMatchFrom_cons.
      unfold preferStep. cbn [m_err m_result]. rewrite He1, Hr1.
      rewrite bestMatchFrom_cons.
      unfold preferStep. cbn [m_err m_result]. rewrite He2, Hr2.
      rewrite (bestMatchFrom_result name _ net); [|reflexivity..].
      unfold failures. rewrite He1, He2, He3. reflexivity. }
    rewrite E. split; [reflexivity|].
    rewrite !in_app_iff. right; right; right. left; reflexivity.
Qed.

(** ** createNetwork: the trace functions *)

Ltac trace_app_induction t1 :=
  induction t1 as [|[[]|] t1 IH]; simpl; try reflexivity; try exact IH;
  try (rewrite IH; reflexivity).

Lemma vlanAttempts_app (t1 t2 : list event) :
  vlanAttempts (t1 ++ t2) = (vlanAttempts t1 ++ vlanAttempts t2)%list.
Proof. trace_app_induction t1. Qed.

Lemma networkAttempts_app (t1 t2 : list event) :
  networkAttempts (t1 ++ t2)
  = (networkAttempts t1 ++ networkAttempts t2)%list.
Proof. trace_app_induction t1. Qed.

Lemma deletedVlans_app (t1 t2 : list event) :
  deletedVlans (t1 ++ t2) = (deletedVlans t1 ++ deletedVlans t2)%list.
Proof. trace_app_induction t1. Qed.

Lemma deletedNetworks_app (t1 t2 : list event) :
  deletedNetworks (t1 ++ t2)
  = (deletedNetworks t1 ++ deletedNetworks t2)%list.
Proof. trace_app_induction t1. Qed.

Lemma createdVlans_app (napi : NAPI) (t1 t2 : list event) :
  createdVlans napi (t1 ++ t2)
  = (createdVlans napi t1 ++ createdVlans napi t2)%list.
Proof.
  induction t1 as [|[[]|] t1 IH]; simpl; try reflexivity; try exact IH.
  destruct (createFabricVLAN napi account id); [exact IH|].
  rewrite IH; reflexivity.
Qed.

Lemma createdNetworks_app (napi : NAPI) (t1 t2 : list event) :
  createdNetworks napi (t1 ++ t2)
  = (createdNetworks napi t1 ++ createdNetworks napi t2)%list.
Proof.
  induction t1 as [|[[]|] t1 IH]; simpl; try reflexivity; try exact IH.
  destruct (createFabricNetwork napi account id p); [exact IH|].
  rewrite IH; reflexivity.
Qed.

Lemma creations_attempts (account : string) (ids : list Z) :
  vlanAttempts (creations account ids) = ids
  /\ networkAttempts (creations account ids) = []
  /\ deletedVlans (creations account ids) = []
  /\ deletedNetworks (creations account ids) = []
  /\ calls (creations account ids) = map (CreateFabricVLAN account) ids.
Proof.
  induction ids as [|i ids [H1 [H2 [H3 [H4 H5]]]]]; simpl;
    [repeat split|].
  rewrite H1, H5. repeat split; assumption.
Qed.

Lemma creations_createdNetworks (napi : NAPI) (account : string)
  (ids : list Z) :
  createdNetworks napi (creations account ids) = [].
Proof. induction ids; simpl; [reflexivity|assumption]. Qed.

Lemma creations_conflicts (napi : NAPI) (account : string) (ids : list Z) :
  Forall (fun id => conflict (createFabricVLAN napi account id) = true) ids ->
  createdVlans napi (creations account ids) = [].
Proof.
  induction 1 as [|i ids Hi _ IH]; simpl; [reflexivity|].
  destruct (createFabricVLAN napi account i); [exact IH|discriminate Hi].
Qed.

(** ** createNetwork: the retry loop *)

Lemma forEachPipeline_cons {A S E} (func : A -> S -> M (option E * S))
  (a : A) (rest : list A) (s : S) :
  forEachPipeline func (a :: rest) s
  = (r <- func a s ;;
     match fst r with
     | Some e => ret r
     | None => forEachPipeline func rest (snd r)
     end).
Proof. reflexivity. Qed.

Lemma tryVlanId_conflict (napi : NAPI) (req : request) (id : Z)
  (ctx : context) :
  conflict (createFabricVLAN napi (account_uuid req) id) = true ->
  tryVlanId napi req id ctx
  = (Ret (None, ctx), [Call (CreateFabricVLAN (account_uuid req) id)]).
Proof.
  unfold tryVlanId, conflict.
  destruct (createFabricVLAN napi (account_uuid req) id) as [err|v];
    [|discriminate].
  intros ->. reflexivity.
Qed.

(** Every candidate met a conflict: all were tried and nothing changed. *)
Lemma tryVlanIds_exhausted (napi : NAPI) (req : request) (ids : list Z)
  (ctx : context) :
  Forall (fun id =>
            conflict (createFabricVLAN napi (account_uuid req) id) = true)
         ids ->
  forEachPipeline (tryVlanId napi req) ids ctx
  = (Ret (None, ctx), creations (account_uuid req) ids).
Proof.
  induction 1 as [|i ids Hi _ IH]; [reflexivity|].
  rewrite forEachPipeline_cons, (tryVlanId_conflict _ _ _ _ Hi), bind_ret.
  cbn [fst snd]. rewrite IH. reflexivity.
Qed.

(** The candidates before [c] met a conflict and [c] was created: the loop
    stops at [c]. *)
Lemma tryVlanIds_success (napi : NAPI) (req : request) (pre post : list Z)
  (c : Z) (v : napiVlan) (ctx : context) :
  Forall (fun id =>
            conflict (createFabricVLAN napi (account_uuid req) id) = true)
         pre ->
  createFabricVLAN napi (account_uuid req) c = inr v ->
  forEachPipeline (tryVlanId napi req) (pre ++ c :: post) ctx
  = (Ret (Some EarlyAbort,
          {| fabricVlanId := Some c; fabricVlan := Some v;
             freeVlanIds := freeVlanIds ctx;
             fabricNetwork := fabricNetwork ctx;
             createdFabricVlan := true |}),
     creations (account_uuid req) (pre ++ [c])).
Proof.
  intros Hpre Hc. induction Hpre as [|i pre Hi _ IH].
  - simpl app. rewrite forEachPipeline_cons. unfold tryVlanId.
    rewrite Hc. reflexivity.
  - simpl app.
    rewrite forEachPipeline_cons, (tryVlanId_conflict _ _ _ _ Hi), bind_ret.
    cbn [fst snd]. rewrite IH. reflexivity.
Qed.

(** The candidates before [c] met a conflict and the creation of [c] failed
    with another error: the loop stops at [c] with that error. *)
Lemma tryVlanIds_failure (napi : NAPI) (req : request) (pre post : list Z)
  (c : Z) (err : napiError) (ctx : context) :
  Forall (fun id =>
            conflict (createFabricVLAN napi (account_uuid req) id) = true)
         pre ->
  createFabricVLAN napi (account_uuid req) c = inl err ->
  String.eqb (message err) "VLAN ID is already in use" = false ->
  forEachPipeline (tryVlanId napi req) (pre ++ c :: post) ctx
  = (Ret (Some (Failed (napiErrorWrap err "Unable to create fabric vlan")),
          ctx),
     creations (account_uuid req) (pre ++ [c])).
Proof.
  intros Hpre Hc Hm. induction Hpre as [|i pre Hi _ IH].
  - simpl app. rewrite forEachPipeline_cons. unfold tryVlanId.
    rewrite Hc, Hm. reflexivity.
  - simpl app.
    rewrite forEachPipeline_cons, (tryVlanId_conflict _ _ _ _ Hi), bind_ret.
    cbn [fst snd]. rewrite IH. reflexivity.
Qed.

(** A list of candidates either conflicts throughout or has a first
    candidate that does not. *)
Lemma first_without_conflict (napi : NAPI) (account : string)
  (ids : list Z) :
  Forall (fun id => conflict (createFabricVLAN napi account id) = true) ids
  \/ exists pre c post,
       ids = (pre ++ c :: post)%list
       /\ Forall (fun id =>
                    conflict (createFabricVLAN napi account id) = true) pre
       /\ conflict (createFabricVLAN napi account c) = false.
Proof.
  induction ids as [|i ids IH]; [left; constructor|].
  destruct (conflict (createFabricVLAN napi account i)) eqn:E.
  - destruct IH as [IH|[pre [c [post [-> [Hp Hc]]]]]].
    + left; constructor; assumption.
    + right. exists (i :: pre), c, post.
      split; [reflexivity|]. split; [constructor; assumption|exact Hc].
  - right. exists [], i, ids. split; [reflexivity|].
    split; [constructor|exact E].
Qed.

(** ** createNetwork: the pipeline *)

Lemma bind_assoc_ret {A B C} (a : A) (t : list event) (f : A -> M B)
  (k : B -> M C) :
  bind (bind (Ret a, t) f) k
  = (fst (bind (f a) k), (t ++ snd (bind (f a) k))%list).
Proof.
  unfold bind. destruct (f a) as [[b|e] t']; [|reflexivity].
  destruct (k b) as [o t'']. simpl. rewrite app_assoc. reflexivity.
Qed.

Lemma pipeline_cons {S} (f : S -> M (option error * S))
  (rest : list (S -> M (option error * S))) (s : S) :
  pipeline (f :: rest) s
  = (r <- f s ;;
     match fst r with
     | Some e => ret r
     | None => pipeline rest (snd r)
     end).
Proof. reflexivity. Qed.

(** A stage that succeeds hands its state to the rest of the pipeline. *)
Lemma pipeline_stage_ok {S C} (f : S -> M (option error * S))
  (rest : list (S -> M (option error * S))) (s s' : S) (t : list event)
  (k : option error * S -> M C) :
  f s = (Ret (None, s'), t) ->
  bind (pipeline (f :: rest) s) k
  = (fst (bind (pipeline rest s') k),
     (t ++ snd (bind (pipeline rest s') k))%list).
Proof.
  intro H. rewrite pipeline_cons, H, bind_assoc_ret. reflexivity.
Qed.

(** A stage that fails ends the pipeline with its error. *)
Lemma pipeline_stage_err {S C} (f : S -> M (option error * S))
  (rest : list (S -> M (option error * S))) (s s' : S) (e : error)
  (t : list event) (k : option error * S -> M C) :
  f s = (Ret (Some e, s'), t) ->
  bind (pipeline (f :: rest) s) k
  = (fst (k (Some e, s')), (t ++ snd (k (Some e, s')))%list).
Proof.
  intro H. rewrite pipeline_cons, H, bind_assoc_ret.
  cbn [fst snd]. unfold ret. rewrite bind_ret. reflexivity.
Qed.

Lemma findFree_exhausted (napi : NAPI) (req : request) (ctx : context)
  (vlans : list napiVlan) :
  fabricVlan ctx = None ->
  listFabricVLANs napi (account_uuid req) = inr vlans ->
  (1024 <= List.length vlans)%nat ->
  findFreeFabricVlanId napi req ctx
  = (Ret (Some (DockerError "No free vlan ids"), ctx),
     [Call (ListFabricVLANs (account_uuid req)); Log Debug [] "vlans: %j"]).
Proof.
  intros Hv Hl Hn. unfold findFreeFabricVlanId. rewrite Hv, Hl.
  apply Nat.leb_le in Hn. rewrite Hn. reflexivity.
Qed.

Lemma findFree_candidates (napi : NAPI) (req : request) (ctx : context)
  (vlans : list napiVlan) (free : list Z) :
  fabricVlan ctx = None ->
  listFabricVLANs napi (account_uuid req) = inr vlans ->
  (List.length vlans < 1024)%nat ->
  freeVlanIdsOf vlans = Ret free ->
  findFreeFabricVlanId napi req ctx
  = (Ret (None,
          {| fabricVlanId := fabricVlanId ctx; fabricVlan := fabricVlan ctx;
             freeVlanIds := Some free; fabricNetwork := fabricNetwork ctx;
             createdFabricVlan := createdFabricVlan ctx |}),
     [Call (ListFabricVLANs (account_uuid req)); Log Debug [] "vlans: %j";
      Log Debug [] "freeVlanIds: %j"]).
Proof.
  intros Hv Hl Hn Hf. unfold findFreeFabricVlanId. rewrite Hv, Hl.
  apply Nat.leb_gt in Hn. rewrite Hn, Hf. reflexivity.
Qed.

(** C8. Without a vlan label, when the listing returns 1024 allocations or
    more, the provisioner fails with the no-free-vlan error, and the vlan
    listing is the only request it sends: no vlan creation is attempted. *)
Theorem exhausted_account_creates_no_vlan (napi : NAPI) (req : request)
  (vlans : list napiVlan) :
  validateVlanLabel (vlanIdLabel (body req)) = inr None ->
  listFabricVLANs napi (account_uuid req) = inr vlans ->
  (1024 <= List.length vlans)%nat ->
  value (createNetwork napi req) = Ret (inl (DockerError "No free vlan ids"))
  /\ calls (trace (createNetwork napi req))
     = [ListFabricVLANs (account_uuid req)]
  /\ vlanAttempts (trace (createNetwork napi req)) = [].
Proof.
  intros Hlabel Hl Hn. unfold createNetwork, stages. rewrite Hlabel.
  rewrite (pipeline_stage_ok _ _ emptyContext emptyContext [])
    by reflexivity.
  rewrite (pipeline_stage_err _ _ _ _ _ _ _
             (findFree_exhausted napi req emptyContext vlans eq_refl Hl Hn)).
  unfold value, trace. cbn. repeat split; reflexivity.
Qed.

Lemma pipeline_ok {S} (f : S -> M (option error * S))
  (rest : list (S -> M (option error * S))) (s s' : S) (t : list event) :
  f s = (Ret (None, s'), t) ->
  pipeline (f :: rest) s
  = (fst (pipeline rest s'), (t ++ snd (pipeline rest s'))%list).
Proof. intro H. rewrite pipeline_cons, H, bind_ret. reflexivity. Qed.

Lemma pipeline_err {S} (f : S -> M (option error * S))
  (rest : list (S -> M (option error * S))) (s s' : S) (e : error)
  (t : list event) :
  f s = (Ret (Some e, s'), t) ->
  pipeline (f :: rest) s = (Ret (Some e, s'), t).
Proof.
  intro H. rewrite pipeline_cons, H, bind_ret. cbn. rewrite app_nil_r.
  reflexivity.
Qed.

Lemma createFabricVlan_skipped (napi : NAPI) (req : request) (ctx : context)
  (v : napiVlan) :
  fabricVlan ctx = Some v ->
  findFreeFabricVlanId napi req ctx = (Ret (None, ctx), [])
  /\ createFabricVlan napi req ctx = (Ret (None, ctx), []).
Proof.
  intro H. unfold findFreeFabricVlanId, createFabricVlan. rewrite H.
  split; reflexivity.
Qed.

(** The creation stage on a non-empty candidate list, by the outcome of the
    retry loop. *)
Lemma createFabricVlan_loop (napi : NAPI) (req : request) (ctx : context)
  (ids : list Z) (r : option nextIdArg * context) (t : list event) :
  fabricVlan ctx = None ->
  freeVlanIds ctx = Some ids ->
  ids <> [] ->
  forEachPipeline (tryVlanId napi req) ids ctx = (Ret r, t) ->
  createFabricVlan napi req ctx
  = (Ret match fst r with
         | Some EarlyAbort => (None, snd r)
         | Some (Failed e) => (Some e, snd r)
         | None =>
             if negb (createdFabricVlan (snd r)) then
               (Some (DockerError "No available VLAN for network creation"),
                snd r)
             else (None, snd r)
         end, t).
Proof.
  intros Hv Hf Hne Hr. unfold createFabricVlan. rewrite Hv, Hf.
  destruct ids as [|i ids]; [congruence|].
  cbn [List.length Nat.ltb Nat.leb negb]. rewrite Hr, bind_ret.
  destruct r as [[[|e]|] c]; cbn [fst snd].
  - rewrite app_nil_r; reflexivity.
  - rewrite app_nil_r; reflexivity.
  - destruct (negb (createdFabricVlan c)); rewrite app_nil_r; reflexivity.
Qed.

(** What the last stage leaves behind when it fails: the context is
    unchanged and nothing was created or deleted. *)
Lemma last_stage_failure (napi : NAPI) (req : request) (ctx ctx' : context)
  (vid : Z) (e : error) (t : list event) :
  fabricVlanId ctx = Some vid ->
  pipeline [createFabricNetworkStage napi req] ctx = (Ret (Some e, ctx'), t) ->
  ctx' = ctx
  /\ vlanAttempts t = [] /\ deletedVlans t = [] /\ deletedNetworks t = []
  /\ createdNetworks napi t = [] /\ createdVlans napi t = [].
Proof.
  intros Hvid. rewrite pipeline_cons. unfold createFabricNetworkStage.
  rewrite Hvid.
  destruct (createCIDR (orElse (IPRange (IPAMConfig0 (body req)))
                          (Subnet (IPAMConfig0 (body req)))))
    as [[first last]|].
  - cbn.
    match goal with
    | |- context [createFabricNetwork ?n ?a ?v ?p] =>
        destruct (createFabricNetwork n a v p) as [err|net] eqn:E
    end; cbn; intro H; inversion H; subst.
    cbn. rewrite E. repeat split; reflexivity.
  - cbn. intro H; inversion H; subst. repeat split; reflexivity.
Qed.

(** The cleanup after a failed pipeline that created no network: one vlan
    deletion when the pipeline created the vlan, none otherwise, and the
    pipeline's error for the caller. *)
Lemma cleanup_after_failure (napi : NAPI) (req : request) (ctx : context)
  (e : error) :
  fabricNetwork ctx = None ->
  value (pipelineDone napi req (Some e, ctx)) = Ret (inl e)
  /\ deletedNetworks (trace (pipelineDone napi req (Some e, ctx))) = []
  /\ deletedVlans (trace (pipelineDone napi req (Some e, ctx)))
     = (if createdFabricVlan ctx then [fabricVlanId ctx] else [])
  /\ createdVlans napi (trace (pipelineDone napi req (Some e, ctx))) = []
  /\ createdNetworks napi (trace (pipelineDone napi req (Some e, ctx))) = []
  /\ vlanAttempts (trace (pipelineDone napi req (Some e, ctx))) = []
  /\ networkAttempts (trace (pipelineDone napi req (Some e, ctx))) = [].
Proof.
  intro Hn. unfold pipelineDone, removeFabricNetwork, removeFabricVLAN.
  cbn [fst snd]. rewrite Hn.
  destruct (createdFabricVlan ctx); cbn.
  - destruct (deleteFabricVLAN napi (account_uuid req) (fabricVlanId ctx));
      cbn; repeat split; reflexivity.
  - repeat split; reflexivity.
Qed.

Lemma pipeline_failure_state (napi : NAPI) (req : request)
  (vlanId : option Z) (e : error) (ctx : context) :
  value (pipeline (stages napi req vlanId) emptyContext)
  = Ret (Some e, ctx) ->
  failureState napi req vlanId ctx
    (trace (pipeline (stages napi req vlanId) emptyContext)).
Proof.
  unfold stages, value, trace.
  set (S4 := createFabricNetworkStage napi req).
  destruct vlanId as [id|].
  - (* a vlan id was asked for *)
    destruct (getFabricVLAN napi (account_uuid req) id) as [err|v] eqn:Eg.
    + rewrite (pipeline_err _ _ emptyContext emptyContext
                 (napiErrorWrap err "Unable to find fabric vlan")
                 [Call (GetFabricVLAN (account_uuid req) id);
                  Log Warn [NapiError err] "napi getFabricVLAN error: %s"])
        by (unfold lookupExistingFabricVlan; rewrite Eg; reflexivity).
      cbn [fst snd]. intro H; inversion H; subst.
      unfold failureState; cbn. repeat split; try reflexivity; try discriminate.
    + set (ctx1 := {| fabricVlanId := Some id; fabricVlan := Some v;
                      freeVlanIds := None; fabricNetwork := None;
                      createdFabricVlan := false |}).
      rewrite (pipeline_ok _ _ emptyContext ctx1
                 [Call (GetFabricVLAN (account_uuid req) id)])
        by (unfold lookupExistingFabricVlan; rewrite Eg; reflexivity).
      destruct (createFabricVlan_skipped napi req ctx1 v eq_refl) as [E2 E3].
      rewrite (pipeline_ok _ _ ctx1 ctx1 [] E2).
      rewrite (pipeline_ok _ _ ctx1 ctx1 [] E3).
      destruct (pipeline [S4] ctx1) as [o t4] eqn:E4.
      cbn [fst snd app]. intros ->.
      destruct (last_stage_failure napi req ctx1 ctx id e t4 eq_refl E4)
        as [-> [_ [H1 [H2 [H3 H4]]]]].
      unfold failureState; cbn. rewrite H1, H2, H3, H4.
      repeat split; try reflexivity; try discriminate.
  - (* no vlan id: find a free one and create it *)
    rewrite (pipeline_ok _ _ emptyContext emptyContext []) by reflexivity.
    cbn [app].
    destruct (listFabricVLANs napi (account_uuid req)) as [err|vlans] eqn:El.
    { rewrite (pipeline_err _ _ emptyContext emptyContext
                 (napiErrorWrap err "Unable to list fabric vlans")
                 [Call (ListFabricVLANs (account_uuid req));
                  Log Debug [] "vlans: %j"])
        by (unfold findFreeFabricVlanId; rewrite El; reflexivity).
      cbn [fst snd]. intro H; inversion H; subst.
      unfold failureState; cbn.
      repeat split; try reflexivity; try discriminate. }
    destruct (Nat.le_gt_cases 1024 (List.length vlans)) as [Hn|Hn].
    { rewrite (pipeline_err _ _ _ _ _ _
                 (findFree_exhausted napi req emptyContext vlans
                    eq_refl El Hn)).
      cbn [fst snd]. intro H; inversion H; subst.
      unfold failureState; cbn.
      repeat split; try reflexivity; try discriminate. }
    destruct (freeVlanIdsOf_returns vlans Hn) as [free [Hf Hne]].
    rewrite (pipeline_ok _ _ _ _ _
               (findFree_candidates napi req emptyContext vlans free
                  eq_refl El Hn Hf)).
    cbn [fabricVlanId fabricVlan fabricNetwork createdFabricVlan
         emptyContext].
    set (ctx2 := {| fabricVlanId := None; fabricVlan := None;
                    freeVlanIds := Some free; fabricNetwork := None;
                    createdFabricVlan := false |}).
    assert (Hfree : free <> []) by (destruct free; [discriminate|congruence]).
    destruct (first_without_conflict napi (account_uuid req) free)
      as [Hall|[pre [c [post [Hsplit [Hpre Hc]]]]]].
    { (* every candidate conflicts *)
      rewrite (pipeline_err _ _ ctx2 ctx2
                 (DockerError "No available VLAN for network creation")
                 (creations (account_uuid req) free))
        by (rewrite (createFabricVlan_loop napi req ctx2 free _ _
                       eq_refl eq_refl Hfree
                       (tryVlanIds_exhausted napi req free ctx2 Hall));
            reflexivity).
      cbn [fst snd]. intro H; inversion H; subst.
      unfold failureState; cbn.
      rewrite (creations_conflicts napi _ _ Hall).
      rewrite (creations_createdNetworks napi).
      destruct (creations_attempts (account_uuid req) free)
        as [_ [_ [-> [-> _]]]].
      repeat split; try reflexivity; try discriminate. }
    destruct (createFabricVLAN napi (account_uuid req) c) as [err|v] eqn:Ec.
    { (* the first candidate without a conflict fails otherwise *)
      rewrite (pipeline_err _ _ ctx2 ctx2
                 (napiErrorWrap err "Unable to create fabric vlan")
                 (creations (account_uuid req) (pre ++ [c])))
        by (rewrite (createFabricVlan_loop napi req ctx2 free _ _
                       eq_refl eq_refl Hfree
                       (eq_trans (f_equal (fun l => forEachPipeline _ l ctx2)
                                    Hsplit)
                          (tryVlanIds_failure napi req pre post c err ctx2
                             Hpre Ec Hc)));
            reflexivity).
      cbn [fst snd]. intro H; inversion H; subst.
      unfold failureState; cbn.
      unfold creations. rewrite map_app. fold (creations (account_uuid req) pre).
      rewrite createdVlans_app, createdNetworks_app, deletedVlans_app,
        deletedNetworks_app.
      rewrite (creations_conflicts napi _ _ Hpre).
      rewrite (creations_createdNetworks napi).
      destruct (creations_attempts (account_uuid req) pre)
        as [_ [_ [-> [-> _]]]].
      cbn. rewrite Ec.
      repeat split; try reflexivity; try discriminate. }
    (* the first candidate without a conflict is created *)
    set (ctx3 := {| fabricVlanId := Some c; fabricVlan := Some v;
                    freeVlanIds := Some free; fabricNetwork := None;
                    createdFabricVlan := true |}).
    rewrite (pipeline_ok _ _ ctx2 ctx3
               (creations (account_uuid req) (pre ++ [c])))
      by (rewrite (createFabricVlan_loop napi req ctx2 free _ _
                     eq_refl eq_refl Hfree
                     (eq_trans (f_equal (fun l => forEachPipeline _ l ctx2)
                                  Hsplit)
                        (tryVlanIds_success napi req pre post c v ctx2
                           Hpre Ec)));
          reflexivity).
    destruct (pipeline [S4] ctx3) as [o t4] eqn:E4.
    cbn [fst snd]. intros ->.
    destruct (last_stage_failure napi req ctx3 ctx c e t4 eq_refl E4)
      as [-> [_ [H1 [H2 [H3 H4]]]]].
    unfold failureState; cbn.
    rewrite !createdVlans_app, !createdNetworks_app, !deletedVlans_app,
      !deletedNetworks_app, H1, H2, H3, H4.
    unfold creations. rewrite map_app. fold (creations (account_uuid req) pre).
    rewrite createdVlans_app, createdNetworks_app, deletedVlans_app,
      deletedNetworks_app.
    rewrite (creations_conflicts napi _ _ Hpre).
    rewrite (creations_createdNetworks napi).
    destruct (creations_attempts (account_uuid req) pre)
      as [_ [_ [-> [-> _]]]].
    cbn. rewrite Ec.
    repeat split; try reflexivity; try discriminate.
Qed.

(** C2. When the pipeline fails, the caller receives the pipeline's error
    whatever the deletions reply; the networks asked to be deleted are the
    networks the pipeline created (none, since creating the network is the
    last stage) and the vlans asked to be deleted are the vlans the pipeline
    created, once each; a vlan found from the label is not deleted. *)
Theorem rollback_deletes_what_was_created (napi : NAPI) (req : request)
  (vlanId : option Z) (e : error) (ctx : context) :
  validateVlanLabel (vlanIdLabel (body req)) = inr vlanId ->
  value (pipeline (stages napi req vlanId) emptyContext)
  = Ret (Some e, ctx) ->
  value (createNetwork napi req) = Ret (inl e)
  /\ deletedNetworks (trace (createNetwork napi req))
     = createdNetworks napi (trace (createNetwork napi req))
  /\ deletedNetworks (trace (createNetwork napi req)) = []
  /\ deletedVlans (trace (createNetwork napi req))
     = map Some (createdVlans napi (trace (createNetwork napi req)))
  /\ (forall id v,
        vlanId = Some id ->
        getFabricVLAN napi (account_uuid req) id = inr v ->
        deletedVlans (trace (createNetwork napi req)) = []).
Proof.
  intros Hlabel Hp.
  pose proof (pipeline_failure_state napi req vlanId e ctx Hp)
    as [Hn [Hdv [Hdn [Hcn [Hcv [Hid Hres]]]]]].
  unfold createNetwork. rewrite Hlabel.
  unfold value, trace in *.
  destruct (pipeline (stages napi req vlanId) emptyContext) as [o t].
  cbn [fst snd] in *. subst o. rewrite bind_ret. cbn [fst snd].
  destruct (cleanup_after_failure napi req ctx e Hn)
    as [Cv [Cdn [Cdv [Ccv [Ccn _]]]]].
  unfold value, trace in *.
  rewrite deletedNetworks_app, createdNetworks_app, deletedVlans_app,
    createdVlans_app, Hdv, Hdn, Hcn, Hcv, Cdn, Cdv, Ccv, Ccn.
  split; [exact Cv|]. split; [reflexivity|]. split; [reflexivity|].
  split.
  - destruct (createdFabricVlan ctx); [|reflexivity].
    destruct (fabricVlanId ctx) as [i|]; [reflexivity|].
    exfalso; apply Hid; reflexivity.
  - intros id v H1 H2. rewrite (Hres id v H1 H2). reflexivity.
Qed.

Lemma createNetwork_unlabelled (napi : NAPI) (req : request)
  (vlans : list napiVlan) (free : list Z) :
  validateVlanLabel (vlanIdLabel (body req)) = inr None ->
  listFabricVLANs napi (account_uuid req) = inr vlans ->
  (List.length vlans < 1024)%nat ->
  freeVlanIdsOf vlans = Ret free ->
  let ctx2 := {| fabricVlanId := None; fabricVlan := None;
                 freeVlanIds := Some free; fabricNetwork := None;
                 createdFabricVlan := false |} in
  let rest := bind (pipeline [createFabricVlan napi req;
                              createFabricNetworkStage napi req] ctx2)
                   (pipelineDone napi req) in
  createNetwork napi req
  = (fst rest,
     ([Call (ListFabricVLANs (account_uuid req)); Log Debug [] "vlans: %j";
       Log Debug [] "freeVlanIds: %j"] ++ snd rest)%list).
Proof.
  intros Hlabel Hl Hn Hf ctx2 rest. unfold createNetwork, stages.
  rewrite Hlabel.
  rewrite (pipeline_stage_ok _ _ emptyContext emptyContext [])
    by reflexivity.
  cbn [fst snd app].
  rewrite (pipeline_stage_ok _ _ _ _ _ _
             (findFree_candidates napi req emptyContext vlans free
                eq_refl Hl Hn Hf)).
  reflexivity.
Qed.

(** The requests of the last stage and of the cleanup never create a vlan;
    with a subnet or range that parses, the last stage asks for one network
    on the vlan of the context. *)
Lemma last_stage_attempts (napi : NAPI) (req : request) (ctx : context)
  (vid : Z) :
  fabricVlanId ctx = Some vid ->
  fabricNetwork ctx = None ->
  let rest := bind (pipeline [createFabricNetworkStage napi req] ctx)
                   (pipelineDone napi req) in
  vlanAttempts (snd rest) = []
  /\ (forall cidr,
        createCIDR (orElse (IPRange (IPAMConfig0 (body req)))
                      (Subnet (IPAMConfig0 (body req)))) = Some cidr ->
        networkAttempts (snd rest) = [vid]).
Proof.
  intros Hvid Hnet rest. subst rest.
  rewrite pipeline_cons. unfold createFabricNetworkStage. rewrite Hvid.
  destruct (createCIDR (orElse (IPRange (IPAMConfig0 (body req)))
                          (Subnet (IPAMConfig0 (body req)))))
    as [[first last]|].
  - match goal with
    | |- context [createFabricNetwork ?n ?a ?v ?p] =>
        destruct (createFabricNetwork n a v p) as [err|net]
    end.
    + cbn. unfold removeFabricNetwork, removeFabricVLAN. rewrite Hnet.
      destruct (createdFabricVlan ctx); cbn;
        [destruct (deleteFabricVLAN napi (account_uuid req)
                     (fabricVlanId ctx)); cbn|];
        (split; [reflexivity|intros; reflexivity]).
    + cbn. split; [reflexivity|intros; reflexivity].
  - cbn. unfold removeFabricNetwork, removeFabricVLAN. rewrite Hnet.
    destruct (createdFabricVlan ctx); cbn;
      [destruct (deleteFabricVLAN napi (account_uuid req)
                   (fabricVlanId ctx)); cbn|];
      (split; [reflexivity|intros cidr H; discriminate H]).
Qed.

(** C6. The candidates are tried one after the other in ascending order.
    When the candidates before [c] meet the already-in-use conflict and [c]
    is created, no later candidate is tried and the network is asked for on
    vlan [c]; when the creation of [c] fails with any other error, the
    provisioner fails with that error at once. *)
Theorem vlan_candidates_tried_in_order (napi : NAPI) (req : request)
  (vlans : list napiVlan) (pre post : list Z) (c : Z) :
  validateVlanLabel (vlanIdLabel (body req)) = inr None ->
  listFabricVLANs napi (account_uuid req) = inr vlans ->
  (List.length vlans < 1024)%nat ->
  freeVlanIdsOf vlans = Ret (pre ++ c :: post)%list ->
  Forall (fun id =>
            conflict (createFabricVLAN napi (account_uuid req) id) = true)
         pre ->
  StronglySorted Z.lt (pre ++ c :: post)
  /\ (forall v,
        createFabricVLAN napi (account_uuid req) c = inr v ->
        vlanAttempts (trace (createNetwork napi req)) = (pre ++ [c])%list
        /\ (forall cidr,
              createCIDR (orElse (IPRange (IPAMConfig0 (body req)))
                            (Subnet (IPAMConfig0 (body req)))) = Some cidr ->
              networkAttempts (trace (createNetwork napi req)) = [c]))
  /\ (forall err,
        createFabricVLAN napi (account_uuid req) c = inl err ->
        conflict (inl err) = false ->
        value (createNetwork napi req)
        = Ret (inl (napiErrorWrap err "Unable to create fabric vlan"))
        /\ vlanAttempts (trace (createNetwork napi req)) = (pre ++ [c])%list
        /\ networkAttempts (trace (createNetwork napi req)) = []).
Proof.
  intros Hlabel Hl Hn Hf Hpre.
  split; [exact (proj2 (proj2 (freeVlanIdsOf_invariant vlans _ Hf)))|].
  rewrite (createNetwork_unlabelled napi req vlans _ Hlabel Hl Hn Hf).
  set (ctx2 := {| fabricVlanId := None; fabricVlan := None;
                  freeVlanIds := Some (pre ++ c :: post)%list;
                  fabricNetwork := None; createdFabricVlan := false |}).
  assert (Hne : (pre ++ c :: post)%list <> [])
    by (destruct pre; discriminate).
  destruct (creations_attempts (account_uuid req) (pre ++ [c]))
    as [A1 [A2 _]].
  unfold value, trace. cbn [fst snd]. split.
  - intros v Hc.
    set (ctx3 := {| fabricVlanId := Some c; fabricVlan := Some v;
                    freeVlanIds := Some (pre ++ c :: post)%list;
                    fabricNetwork := None; createdFabricVlan := true |}).
    rewrite (pipeline_stage_ok _ _ ctx2 ctx3
               (creations (account_uuid req) (pre ++ [c])))
      by (rewrite (createFabricVlan_loop napi req ctx2 _ _ _
                     eq_refl eq_refl Hne
                     (tryVlanIds_success napi req pre post c v ctx2
                        Hpre Hc));
          reflexivity).
    cbn [fst snd].
    destruct (last_stage_attempts napi req ctx3 c eq_refl eq_refl)
      as [L1 L2].
    cbn zeta in L1, L2.
    rewrite !vlanAttempts_app, !networkAttempts_app, A1, A2, L1.
    cbn [vlanAttempts networkAttempts app].
    split; [rewrite app_nil_r; reflexivity|].
    intros cidr Hcidr. rewrite (L2 cidr Hcidr). reflexivity.
  - intros err Hc Hm.
    rewrite (pipeline_stage_err _ _ ctx2 ctx2
               (napiErrorWrap err "Unable to create fabric vlan")
               (creations (account_uuid req) (pre ++ [c])))
      by (rewrite (createFabricVlan_loop napi req ctx2 _ _ _
                     eq_refl eq_refl Hne
                     (tryVlanIds_failure napi req pre post c err ctx2
                        Hpre Hc Hm));
          reflexivity).
    cbn [fst snd].
    destruct (cleanup_after_failure napi req ctx2
                (napiErrorWrap err "Unable to create fabric vlan") eq_refl)
      as [Cv [_ [_ [_ [_ [Ca Cn]]]]]].
    unfold value, trace in Cv, Ca, Cn.
    rewrite !vlanAttempts_app, !networkAttempts_app, A1, A2, Ca, Cn.
    cbn [vlanAttempts networkAttempts app]. rewrite app_nil_r.
    split; [exact Cv|]. split; reflexivity.
Qed.

(** C5. A 63-character id whose last 31 characters repeat its first 31 is a
    valid prefix of a full id, yet the partial-id search takes it for an
    impossible id: it calls back with an empty list and sends no request. *)
Theorem partial_id_of_63_is_skipped (napi : NAPI) (account : string) :
  String.length partialId63 = 63%nat
  /\ validPartialId partialId63 = true
  /\ value (byDockerId napi partialId63 account)
     = Ret {| op_err := None; op_result := Some [] |}
  /\ calls (trace (byDockerId napi partialId63 account)) = [].
Proof.
  split; [reflexivity|]. split; [vm_compute; reflexivity|].
  unfold byDockerId.
  assert (H : impossibleDockerId partialId63 = true)
    by (vm_compute; reflexivity).
  rewrite H. split; reflexivity.
Qed.

(** * Further properties *)

(** ** Strings *)

Lemma length_substring (s : string) :
  forall n m,
    String.length (substring n m s) = Nat.min m (String.length s - n).
Proof.
  induction s as [|c s IH]; intros [|n] [|m]; simpl; try reflexivity.
  - rewrite IH, Nat.sub_0_r. reflexivity.
  - rewrite IH. reflexivity.
  - rewrite IH. reflexivity.
Qed.

Lemma substring_substring (s : string) :
  forall k m,
    substring 0 k (substring 0 m s) = substring 0 (Nat.min k m) s.
Proof.
  induction s as [|c s IH]; intros [|k] [|m]; simpl; try reflexivity.
  rewrite IH. reflexivity.
Qed.

Lemma append_star_truthy (s : string) : truthy (Some (s ++ "*")%string) = true.
Proof. destruct s; reflexivity. Qed.

(** ** The strategies of the resolver *)

(** The events of a computation come first in the trace of what is bound to
    it. *)
Lemma trace_bind {A B} (m : M A) (f : A -> M B) :
  exists t, trace (bind m f) = (trace m ++ t)%list.
Proof.
  destruct m as [[a|e] t]; unfold bind, trace; simpl.
  - destruct (f a) as [o t']. exists t'. reflexivity.
  - exists []. rewrite app_nil_r. reflexivity.
Qed.

Lemma trace_bind_bind {A B C} (m : M A) (f : A -> M B) (g : B -> M C) :
  exists t, trace (bind (bind m f) g) = (trace m ++ t)%list.
Proof.
  destruct (trace_bind (bind m f) g) as [t1 E1].
  destruct (trace_bind m f) as [t2 E2].
  exists (t2 ++ t1)%list. rewrite E1, E2, app_assoc. reflexivity.
Qed.

Lemma tryEach_cons {V} (f : M (cbArgs V)) (rest : list (M (cbArgs V))) :
  tryEach (f :: rest)
  = (r <- f ;;
     match fst r, rest with
     | Some _, _ :: _ => tryEach rest
     | _, _ => ret r
     end).
Proof. reflexivity. Qed.

(** A search sends the direct network listing first. *)
Lemma getNetworksOrPools_first_call (napi : NAPI) (params : listParams) :
  truthy (p_name params) || truthy (p_uuid params) = true ->
  exists rest,
    calls (trace (getNetworksOrPools napi params))
    = ListNetworks params :: rest.
Proof.
  intro Ht. unfold getNetworksOrPools. rewrite Ht. cbn [negb].
  rewrite tryEach_cons.
  match goal with
  | |- context [trace (bind (bind ?m ?f) ?g)] =>
      destruct (trace_bind_bind m f g) as [t Et]
  end.
  eexists. etransitivity; [exact (f_equal calls Et)|].
  rewrite calls_app. unfold listNets. cbn. reflexivity.
Qed.

(** The exact-id search is local unless the name is empty or a 64-character
    id whose halves agree: for any other name it calls back with an empty
    list and sends no request. *)
Theorem exact_id_search_skipped (napi : NAPI) (name account : string) :
  name <> ""%string ->
  String.length name <> 64%nat
  \/ substr name 0 32 <> substr_from name 32 ->
  value (byExactId napi name account)
  = Ret {| op_err := None; op_result := Some [] |}
  /\ calls (trace (byExactId napi name account)) = [].
Proof.
  intros Hne H.
  assert (E : String.eqb (substr name 0 32) (substr_from name 32) = false).
  { apply String.eqb_neq. intro Heq. destruct H as [H|H]; [|exact (H Heq)].
    apply (f_equal String.length) in Heq.
    unfold substr, substr_from in Heq. rewrite !length_substring in Heq.
    destruct name as [|c name]; [exact (Hne eq_refl)|].
    simpl String.length in *. lia. }
  unfold byExactId. rewrite E. split; reflexivity.
Qed.

(** A partial id of 63 characters or more is never searched for. *)
Theorem long_partial_id_skipped (napi : NAPI) (name account : string) :
  (63 <= String.length name)%nat ->
  value (byDockerId napi name account)
  = Ret {| op_err := None; op_result := Some [] |}
  /\ calls (trace (byDockerId napi name account)) = [].
Proof.
  intro Hl.
  assert (E : impossibleDockerId name = true).
  { unfold impossibleDockerId, substr, substr_from.
    assert (H32 : (32 <=? String.length name)%nat = true)
      by (apply Nat.leb_le; lia).
    rewrite H32, !length_substring.
    apply orb_true_iff. left. apply Nat.leb_le. lia. }
  unfold byDockerId. rewrite E. split; reflexivity.
Qed.

(** For a partial id of at most 62 characters the partial-id search is sent
    exactly when what follows index 32 is a prefix of the 32 characters
    before it; the request is the star-suffixed uuid prefix. *)
Theorem partial_id_search (napi : NAPI) (name account : string) :
  (String.length name <= 62)%nat ->
  if prefix (substr_from name 32) (substr name 0 32)
  then exists rest,
         calls (trace (byDockerId napi name account))
         = ListNetworks
             (uuidFilter (ldapEscape (shortNetworkIdToUuidPrefix name) ++ "*")
                account) :: rest
  else value (byDockerId napi name account)
       = Ret {| op_err := None; op_result := Some [] |}
       /\ calls (trace (byDockerId napi name account)) = [].
Proof.
  intro Hl.
  assert (E : impossibleDockerId name
              = negb (prefix (substr_from name 32) (substr name 0 32))).
  { unfold impossibleDockerId, substr, substr_from.
    destruct (32 <=? String.length name)%nat eqn:H32.
    - apply Nat.leb_le in H32.
      assert (Hlen : (String.length (substring 0 31 name)
                      <=? String.length
                            (substring 32 (String.length name - 32) name))%nat
                     = false).
      { apply Nat.leb_gt. rewrite !length_substring. lia. }
      rewrite Hlen. cbn [orb]. f_equal.
      rewrite substring_substring.
      assert (Hmin : Nat.min
                       (String.length
                          (substring 32 (String.length name - 32) name)) 31
                     = String.length
                         (substring 32 (String.length name - 32) name))
        by (rewrite length_substring; lia).
      rewrite Hmin.
      set (second := substring 32 (String.length name - 32) name) in *.
      destruct (prefix second (substring 0 32 name)) eqn:Ep.
      + apply prefix_correct in Ep. rewrite substring_substring in Ep.
        assert (Hmin' : Nat.min (String.length second) 32
                        = String.length second)
          by (unfold second; rewrite length_substring; lia).
        rewrite Hmin' in Ep. rewrite Ep. apply String.eqb_refl.
      + apply String.eqb_neq. intro Heq.
        assert (Ht : prefix second (substring 0 32 name) = true).
        { apply prefix_correct. rewrite substring_substring.
          assert (Hmin' : Nat.min (String.length second) 32
                          = String.length second)
            by (unfold second; rewrite length_substring; lia).
          rewrite Hmin'. symmetry. exact Heq. }
        congruence.
    - apply Nat.leb_gt in H32.
      assert (Hs : substring 32 (String.length name - 32) name = ""%string).
      { assert (H0 : String.length
                       (substring 32 (String.length name - 32) name) = 0%nat)
          by (rewrite length_substring; lia).
        destruct (substring 32 (String.length name - 32) name);
          [reflexivity|discriminate H0]. }
      rewrite Hs. destruct (substring 0 32 name); reflexivity. }
  unfold byDockerId. rewrite E.
  destruct (prefix (substr_from name 32) (substr name 0 32)); cbn [negb].
  - match goal with
    | |- context [bind ?m ?f] => destruct (trace_bind m f) as [t Et]
    end.
    unfold log, emit in Et. cbn [trace snd app] in Et.
    unfold search.
    destruct (getNetworksOrPools_first_call napi
                (uuidFilter
                   (ldapEscape (shortNetworkIdToUuidPrefix name) ++ "*")
                   account)) as [rest Hrest].
    { cbn. apply append_star_truthy. }
    unfold uuidFilter in Hrest.
    match goal with
    | |- context [bind (getNetworksOrPools ?n ?p) ?f] =>
        destruct (trace_bind (getNetworksOrPools n p) f) as [t2 Et2]
    end.
    unfold log, emit, bind at 1. cbn [fst snd].
    match goal with
    | |- context [let (o, t') := ?m in _] =>
        replace m with (fst m, snd m) by (destruct m; reflexivity)
    end.
    unfold trace in *. cbn [snd calls app]. eexists.
    etransitivity; [exact (f_equal calls Et2)|].
    rewrite calls_app, Hrest. reflexivity.
  - split; reflexivity.
Qed.

(** ** The shape of a search reply *)

Lemma directCb_wellShaped (r : listReply) (res : searchResult) :
  snd (directCb r) = Some res -> wellShaped res.
Proof.
  unfold directCb, wellShaped.
  destruct (emptyList (reply_res r)); [discriminate|].
  destruct (realError (reply_err r)) eqn:E; cbn [snd];
    intro H; injection H as <-; cbn [sr_err sr_res].
  - destruct (reply_err r); [split; [exact E|reflexivity]|exact I].
  - exact I.
Qed.

Lemma filteredSearch_wellShaped (params : listParams)
  (request : listParams -> call) (reply : listParams -> listReply)
  (notFound : string) (r : cbArgs searchResult) (res : searchResult) :
  value (filteredSearch params request reply notFound) = Ret r ->
  snd r = Some res -> wellShaped res.
Proof.
  unfold filteredSearch, value.
  destruct (truthy (p_name params)).
  { cbn. intro H; injection H as <-. discriminate. }
  destruct (p_uuid params) as [uuid|]; [|discriminate].
  destruct (String.get (String.length uuid - 1) uuid) as [c|].
  2:{ cbn. intro H; injection H as <-. discriminate. }
  destruct c as [b0 b1 b2 b3 b4 b5 b6 b7].
  destruct b0, b1, b2, b3, b4, b5, b6, b7;
    try (cbn; intro H; injection H as <-; discriminate).
  unfold filteredCb.
  match goal with
  | |- context [reply ?p] => destruct (reply p) as [err lst]
  end.
  cbn [reply_res reply_err].
  destruct (emptyList lst).
  { cbn. intro H; injection H as <-. discriminate. }
  destruct (realError err) eqn:E.
  { cbn. intro H; injection H as <-. cbn. intro H; injection H as <-.
    unfold wellShaped; cbn. destruct err; [split; [exact E|reflexivity]|exact I]. }
  destruct lst as [l|]; [|discriminate].
  match goal with
  | |- context [filter ?f l] => destruct (0 <? List.length (filter f l))%nat
  end; cbn; intro H; injection H as <-; cbn; intro H; try discriminate H.
  injection H as <-. exact I.
Qed.

(** What [tryEach] calls back with is what one of its functions called back
    with. *)
Lemma tryEach_from {V} (fs : list (M (cbArgs V))) (r : cbArgs V) :
  fs <> [] ->
  value (tryEach fs) = Ret r ->
  exists f, In f fs /\ value f = Ret r.
Proof.
  induction fs as [|f rest IH]; [congruence|]. intros _.
  rewrite tryEach_cons. destruct f as [[a|e] t]; [|discriminate].
  rewrite bind_ret. unfold value. cbn [fst snd].
  destruct (fst a) as [e|] eqn:Ea; [destruct rest as [|g rest]|].
  - cbn. intro H; injection H as <-. exists (Ret a, t).
    split; [left; reflexivity|reflexivity].
  - intro H. destruct (IH ltac:(discriminate) H) as [f [Hin Hf]].
    exists f. split; [right; exact Hin|exact Hf].
  - cbn. intro H; injection H as <-. exists (Ret a, t).
    split; [left; reflexivity|reflexivity].
Qed.

(** Whatever NAPI replies, a search that calls back hands over either an
    error other than 404 and no list, or no error and a list: a 404 is
    never passed on and the list is never missing. *)
Theorem search_reply_shape (napi : NAPI) (params : listParams)
  (err : option napiError) (res : option (list napiNetwork)) :
  value (getNetworksOrPools napi params) = Ret (err, res) ->
  match err with
  | Some e => realError (Some e) = true /\ res = None
  | None => exists l, res = Some l
  end.
Proof.
  unfold getNetworksOrPools.
  destruct (negb (truthy (p_name params) || truthy (p_uuid params)));
    [discriminate|].
  match goal with
  | |- context [bind (tryEach ?fs) ?k] =>
      destruct (tryEach fs) as [[r|e] t] eqn:Et; [|discriminate];
      pose proof (tryEach_from fs r ltac:(discriminate)
                    (f_equal fst Et)) as [f [Hin Hf]]
  end.
  rewrite bind_ret. unfold value. cbn [fst].
  destruct (snd r) as [sres|] eqn:Es; [|discriminate].
  assert (Hw : wellShaped sres).
  { cbn [In] in Hin.
    destruct Hin as [<-|[<-|[<-|[<-|[<-|[]]]]]].
    - unfold listNets, value in Hf. cbn in Hf. injection Hf as <-.
      exact (directCb_wellShaped _ _ Es).
    - exact (filteredSearch_wellShaped _ _ _ _ _ _ Hf Es).
    - unfold listNetPools, value in Hf. cbn in Hf. injection Hf as <-.
      exact (directCb_wellShaped _ _ Es).
    - exact (filteredSearch_wellShaped _ _ _ _ _ _ Hf Es).
    - unfold final, value in Hf. cbn in Hf. injection Hf as <-.
      cbn in Es. injection Es as <-. exact I. }
  unfold wellShaped in Hw.
  destruct (sr_err sres) as [e|]; destruct (sr_res sres) as [l|];
    cbn; intro H; try discriminate H; injection H as <- <-.
  - destruct Hw; discriminate.
  - exact Hw.
  - exists l; reflexivity.
Qed.

(** For a filter that is not a prefix search (a name, or a uuid without a
    final star) the listing of all the account's networks or pools is never
    requested: every request carries the filter itself. *)
Theorem no_unfiltered_listing (napi : NAPI) (params : listParams) :
  prefixFilter params = false ->
  incl (calls (trace (getNetworksOrPools napi params)))
       [ListNetworks params; ListNetworkPools params].
Proof.
  intro Hp. unfold getNetworksOrPools.
  destruct (truthy (p_name params) || truthy (p_uuid params)) eqn:Ht;
    cbn [negb]; [|intros c []].
  assert (Hf : forall request reply notFound,
             exists e, filteredSearch params request reply notFound
                       = (Ret (Some e, None), [])).
  { intros request reply notFound.
    unfold filteredSearch. unfold prefixFilter in Hp.
    destruct (truthy (p_name params)); [eexists; reflexivity|].
    cbn [negb andb] in Hp. cbn [orb] in Ht.
    destruct (p_uuid params) as [uuid|]; [|discriminate Ht].
    destruct (String.get (String.length uuid - 1) uuid) as [c|];
      [|eexists; reflexivity].
    destruct c as [b0 b1 b2 b3 b4 b5 b6 b7].
    destruct b0, b1, b2, b3, b4, b5, b6, b7;
      try (eexists; reflexivity); discriminate Hp. }
  unfold listFiltNets, listFiltNetPools.
  destruct (Hf ListNetworks (listNetworks napi) "Network not found"%string)
    as [e2 ->].
  destruct (Hf ListNetworkPools (listNetworkPools napi)
              "Network pool not found"%string) as [e4 ->].
  unfold listNets, listNetPools, final, trace.
  destruct (directCb (listNetworks napi params))
    as [[e1|] [[[a1|] [r1|]]|]];
    destruct (directCb (listNetworkPools napi params))
      as [[e3|] [[[a3|] [r3|]]|]];
    cbn; intros c Hc; simpl In in Hc |- *; tauto.
Qed.

(** ** The reduction of the resolver *)

Lemma bestMatchFrom_noMatch (name : string) (acc : match_)
  (pre rest : list operation) :
  Forall noMatch pre ->
  bestMatchFrom name acc (pre ++ rest) = bestMatchFrom name acc rest.
Proof.
  induction 1 as [|op pre [He Hr] _ IH]; [reflexivity|].
  simpl app. rewrite bestMatchFrom_cons. unfold preferStep.
  rewrite He, Hr.
  destruct (m_err acc); [exact IH|]. destruct (m_result acc); exact IH.
Qed.

(** When no search has an error or a match, the resolver fails with the
    not-found error for the name it was given. *)
Theorem resolver_not_found (name : string) (ops : list operation) :
  Forall noMatch ops ->
  value (listedNetworks name ops) = Ret (inl (NetworkNotFoundError name)).
Proof.
  intro H. unfold listedNetworks, bestMatchOf.
  rewrite <- (app_nil_r ops), (bestMatchFrom_noMatch name _ ops [] H).
  reflexivity.
Qed.

Lemma matched_network (name : string) (ops : list operation)
  (acc : match_) (net : napiNetwork) :
  m_err acc = None -> m_result acc = None ->
  bestMatchFrom name acc ops
  = Ret {| m_err := None; m_result := Some net |} ->
  exists pre op post,
    ops = (pre ++ op :: post)%list
    /\ Forall noMatch pre
    /\ op_err op = None
    /\ op_result op = Some [net].
Proof.
  intros Ha Hb. induction ops as [|op ops IH].
  - cbn. intro H; injection H as ->. cbn in Hb. discriminate.
  - rewrite bestMatchFrom_cons. unfold preferStep. rewrite Ha, Hb.
    destruct (op_err op) as [e|] eqn:He.
    { rewrite (bestMatchFrom_error name _ e) by reflexivity. discriminate. }
    destruct (op_result op) as [[|n [|n' l]]|] eqn:Hr.
    + intro H. destruct (IH H) as [pre [o [post [-> [Hp Ho]]]]].
      exists (op :: pre), o, post.
      split; [reflexivity|]. split; [|exact Ho].
      constructor; [split; assumption|exact Hp].
    + rewrite (bestMatchFrom_result name _ n) by reflexivity.
      intro H; injection H as ->.
      exists [], op, ops. repeat split; try assumption. constructor.
    + rewrite (bestMatchFrom_error name _
                 (AmbiguousDockerNetworkIdPrefixError name)) by reflexivity.
      discriminate.
    + discriminate.
Qed.

(** A network the resolver returns is the only match of a search whose
    more preferred searches all came back with no error and no match. *)
Theorem resolved_network_is_preferred_match (name : string)
  (ops : list operation) (net : napiNetwork) :
  value (listedNetworks name ops) = Ret (inr net) ->
  exists pre op post,
    ops = (pre ++ op :: post)%list
    /\ Forall noMatch pre
    /\ op_err op = None
    /\ op_result op = Some [net].
Proof.
  unfold listedNetworks, bestMatchOf, lift.
  destruct (bestMatchFrom name {| m_err := None; m_result := None |} ops)
    as [[[e|] [n|]]|x] eqn:E; try (cbn; discriminate).
  rewrite bind_ret. unfold value. cbn [fst m_err m_result].
  destruct (failures ops); cbn; intro H; injection H as <-;
    exact (matched_network name ops {| m_err := None; m_result := None |}
             n eq_refl eq_refl E).
Qed.

(** ** createNetwork: validation, the label path and exhaustion *)

Lemma findFree_first_call (napi : NAPI) (req : request) (ctx : context) :
  fabricVlan ctx = None ->
  exists t,
    trace (findFreeFabricVlanId napi req ctx)
    = Call (ListFabricVLANs (account_uuid req)) :: t.
Proof.
  intro H. unfold findFreeFabricVlanId. rewrite H.
  match goal with
  | |- context [trace (bind ?m ?f)] =>
      pose proof (trace_bind m f) as X
  end.
  destruct X as [t Et]. exists t. exact Et.
Qed.

(** The provisioner sends no request exactly when the vlan label is
    rejected; the caller then receives the validation error. *)
Theorem no_request_iff_label_rejected (napi : NAPI) (req : request) :
  (forall e,
     validateVlanLabel (vlanIdLabel (body req)) = inl e ->
     createNetwork napi req = (Ret (inl e), []))
  /\ (calls (trace (createNetwork napi req)) = []
      <-> exists e, validateVlanLabel (vlanIdLabel (body req)) = inl e).
Proof.
  split.
  - intros e H. unfold createNetwork. rewrite H. reflexivity.
  - split.
    + intro Hc. unfold createNetwork in Hc.
      destruct (validateVlanLabel (vlanIdLabel (body req))) as [e|vlanId];
        [exists e; reflexivity|exfalso].
      cbv beta iota in Hc. unfold stages in Hc.
      destruct vlanId as [id|].
      * rewrite pipeline_cons in Hc.
        match type of Hc with
        | context [trace (bind (bind ?m ?f) ?g)] =>
            pose proof (trace_bind_bind m f g) as X
        end.
        destruct X as [t Et].
        apply (f_equal calls) in Et. rewrite Hc, calls_app in Et.
        unfold lookupExistingFabricVlan in Et.
        destruct (getFabricVLAN napi (account_uuid req) id);
          cbn in Et; discriminate Et.
      * rewrite (pipeline_stage_ok _ _ emptyContext emptyContext [])
          in Hc by reflexivity.
        rewrite pipeline_cons in Hc.
        unfold trace in Hc. cbn [snd app] in Hc.
        match type of Hc with
        | context [snd (bind (bind ?m ?f) ?g)] =>
            pose proof (trace_bind_bind m f g) as X
        end.
        destruct X as [t Et].
        apply (f_equal calls) in Et. unfold trace in Et.
        rewrite Hc, calls_app in Et.
        destruct (findFree_first_call napi req emptyContext eq_refl)
          as [t' Et'].
        unfold trace in Et'. rewrite Et' in Et. discriminate Et.
    + intros [e H]. unfold createNetwork. rewrite H. reflexivity.
Qed.

(** With a vlan label that is found, the vlan is neither listed, created
    nor deleted: the lookup and the network creation on that vlan are the
    only requests, and the caller gets the docker id of the new network or
    the wrapped creation error.  When the lookup fails, it is the only
    request and its wrapped error is the result. *)
Theorem requested_vlan_is_reused (napi : NAPI) (req : request) (id : Z) :
  validateVlanLabel (vlanIdLabel (body req)) = inr (Some id) ->
  (forall err,
     getFabricVLAN napi (account_uuid req) id = inl err ->
     value (createNetwork napi req)
     = Ret (inl (napiErrorWrap err "Unable to find fabric vlan"))
     /\ calls (trace (createNetwork napi req))
        = [GetFabricVLAN (account_uuid req) id])
  /\ (forall v first last,
        getFabricVLAN napi (account_uuid req) id = inr v ->
        createCIDR (orElse (IPRange (IPAMConfig0 (body req)))
                      (Subnet (IPAMConfig0 (body req))))
        = Some (first, last) ->
        let params :=
          {| fp_name := Name (body req); fp_provision_start_ip := first;
             fp_provision_end_ip := last;
             fp_subnet := Subnet (IPAMConfig0 (body req));
             fp_vlan_id := id |} in
        calls (trace (createNetwork napi req))
        = [GetFabricVLAN (account_uuid req) id;
           CreateFabricNetwork (account_uuid req) id params]
        /\ value (createNetwork napi req)
           = match createFabricNetwork napi (account_uuid req) id params with
             | inr net => Ret (inr (networkUuidToDockerId (n_uuid net)))
             | inl err =>
                 Ret (inl (napiErrorWrap err "Unable to create network"))
             end).
Proof.
  intro Hlabel. unfold createNetwork, stages. rewrite Hlabel. split.
  - intros err Hg.
    rewrite (pipeline_stage_err _ _ emptyContext emptyContext
               (napiErrorWrap err "Unable to find fabric vlan")
               [Call (GetFabricVLAN (account_uuid req) id);
                Log Warn [NapiError err] "napi getFabricVLAN error: %s"])
      by (unfold lookupExistingFabricVlan; rewrite Hg; reflexivity).
    split; reflexivity.
  - intros v first last Hg Hc.
    set (ctx1 := {| fabricVlanId := Some id; fabricVlan := Some v;
                    freeVlanIds := None; fabricNetwork := None;
                    createdFabricVlan := false |}).
    rewrite (pipeline_stage_ok _ _ emptyContext ctx1
               [Call (GetFabricVLAN (account_uuid req) id)])
      by (unfold lookupExistingFabricVlan; rewrite Hg; reflexivity).
    destruct (createFabricVlan_skipped napi req ctx1 v eq_refl) as [E2 E3].
    rewrite (pipeline_stage_ok _ _ ctx1 ctx1 [] _ E2).
    rewrite (pipeline_stage_ok _ _ ctx1 ctx1 [] _ E3).
    rewrite pipeline_cons. unfold createFabricNetworkStage.
    cbn [fabricVlanId ctx1]. rewrite Hc.
    unfold value, trace.
    match goal with
    | |- context [createFabricNetwork ?n ?a ?i ?p] =>
        destruct (createFabricNetwork n a i p) as [err|net]
    end; cbn; split; reflexivity.
Qed.

(** When every candidate meets the already-in-use conflict, all of them
    have been tried in order, nothing else is requested after the vlan
    listing, and the provisioner fails with the no-available-vlan error. *)
Theorem all_candidates_taken (napi : NAPI) (req : request)
  (vlans : list napiVlan) (free : list Z) :
  validateVlanLabel (vlanIdLabel (body req)) = inr None ->
  listFabricVLANs napi (account_uuid req) = inr vlans ->
  (List.length vlans < 1024)%nat ->
  freeVlanIdsOf vlans = Ret free ->
  Forall (fun id =>
            conflict (createFabricVLAN napi (account_uuid req) id) = true)
         free ->
  value (createNetwork napi req)
  = Ret (inl (DockerError "No available VLAN for network creation"))
  /\ calls (trace (createNetwork napi req))
     = ListFabricVLANs (account_uuid req)
       :: map (CreateFabricVLAN (account_uuid req)) free.
Proof.
  intros Hlabel Hl Hn Hf Hall.
  rewrite (createNetwork_unlabelled napi req vlans free Hlabel Hl Hn Hf).
  set (ctx2 := {| fabricVlanId := None; fabricVlan := None;
                  freeVlanIds := Some free; fabricNetwork := None;
                  createdFabricVlan := false |}).
  assert (Hne : free <> []).
  { destruct (freeVlanIdsOf_returns vlans Hn) as [f [Hf' Hlen]].
    rewrite Hf in Hf'. injection Hf' as <-.
    destruct free; [discriminate Hlen|discriminate]. }
  rewrite (pipeline_stage_err _ _ ctx2 ctx2
             (DockerError "No available VLAN for network creation")
             (creations (account_uuid req) free))
    by (rewrite (createFabricVlan_loop napi req ctx2 free _ _
                   eq_refl eq_refl Hne
                   (tryVlanIds_exhausted napi req free ctx2 Hall));
        reflexivity).
  unfold value, trace. cbn [fst snd].
  destruct (creations_attempts (account_uuid req) free)
    as [_ [_ [_ [_ Hcalls]]]].
  split; [reflexivity|].
  cbn [app calls]. rewrite calls_app, Hcalls. cbn. rewrite app_nil_r.
  reflexivity.
Qed.

(** ** The free vlan id scan, continued *)

(** The candidates of an account with fewer than 1024 vlans: between one and
    ten ids, in strictly increasing order, none of them the reserved id 1,
    each between 0 and 1024. *)
Theorem free_vlan_ids_well_formed (vlans : list napiVlan) :
  (List.length vlans < 1024)%nat ->
  exists free,
    freeVlanIdsOf vlans = Ret free
    /\ (1 <= List.length free <= 10)%nat
    /\ StronglySorted Z.lt free
    /\ (forall x, In x free -> 0 <= x <= 1024 /\ x <> 1).
Proof.
  intro Hn. destruct (freeVlanIdsOf_returns vlans Hn) as [free [Hf Hne]].
  destruct (freeVlanIdsOf_invariant vlans free Hf) as [H1 [H2 H3]].
  exists free. split; [exact Hf|]. apply Nat.ltb_lt in Hne.
  split; [lia|]. split; [exact H3|exact H2].
Qed.

Lemma sortInsert_In (x y : Z) (l : list Z) :
  In y (sortInsert x l) <-> y = x \/ In y l.
Proof.
  induction l as [|a l IH]; simpl.
  - split; [intros [H|[]]; left; congruence|intros [H|[]]; left; congruence].
  - destruct (String.leb (toString x) (toString a)); simpl.
    + split; [intros [H|H]; [left; congruence|right; exact H]
             |intros [H|H]; [left; congruence|right; exact H]].
    + rewrite IH. split.
      * intros [H|[H|H]]; [right; left; exact H|left; exact H
                          |right; right; exact H].
      * intros [H|[H|H]]; [right; left; exact H|left; exact H
                          |right; right; exact H].
Qed.

Lemma sort_In (y : Z) (l : list Z) : In y (sort l) <-> In y l.
Proof.
  induction l as [|x l IH]; simpl; [reflexivity|].
  rewrite sortInsert_In, IH. split; intros [H|H]; auto.
Qed.

Lemma sorted_nth (l : list Z) :
  StronglySorted Z.lt l ->
  forall j k a b,
    nth_error l j = Some a -> nth_error l k = Some b ->
    (j < k)%nat -> a < b.
Proof.
  induction 1 as [|x l Hs IH Hx]; intros j k a b Hj Hk Hlt.
  - destruct j; discriminate.
  - destruct k as [|k]; [lia|]. simpl in Hk. destruct j as [|j].
    + simpl in Hj. injection Hj as <-.
      rewrite Forall_forall in Hx. apply Hx.
      eapply nth_error_In; exact Hk.
    + simpl in Hj. eapply IH; [exact Hj|exact Hk|lia].
Qed.

(** On an array without duplicates next to each other the inner loop does
    not move. *)
Lemma skipDuplicates_stays (n : nat) (taken : list Z) (id : Z) (idx : nat) :
  (forall t, nth_error taken idx = Some t -> t <> id) ->
  skipDuplicates n taken id idx = Ret idx.
Proof.
  intro H. destruct n; simpl;
    (destruct (nth_error taken idx) as [t|] eqn:E; [|reflexivity];
     destruct (id =? t) eqn:Eq; [|reflexivity];
     apply Z.eqb_eq in Eq; exfalso; apply (H t eq_refl); congruence).
Qed.

Lemma scanLoop_skips_taken (taken : list Z) :
  StronglySorted Z.lt taken ->
  (forall t, In t taken -> t <> 1) ->
  forall n id takenIdx free r,
    scanPosition taken id takenIdx ->
    (forall x, In x free -> ~ In x taken) ->
    scanLoop n taken id takenIdx free = Ret r ->
    forall x, In x r -> ~ In x taken.
Proof.
  intros Hs H1 n. induction n as [|n IH]; intros id idx free r Hp Hq Hr.
  - simpl in Hr.
    destruct ((id <? 1024) && (List.length free <? 10)%nat);
      [discriminate|]. injection Hr as <-. exact Hq.
  - cbn [scanLoop] in Hr.
    destruct ((id <? 1024) && (List.length free <? 10)%nat);
      [|injection Hr as <-; exact Hq].
    destruct Hp as [Hlo Hhi].
    destruct (id + 1 =? 1) eqn:E1.
    { apply Z.eqb_eq in E1. eapply IH; [|exact Hq|exact Hr]. split.
      - intros j t Hj Ht. specialize (Hlo j t Hj Ht). lia.
      - intros j t Hj Ht. specialize (Hhi j t Hj Ht).
        assert (t <> 1) by (apply H1; eapply nth_error_In; exact Ht). lia. }
    assert (Hpush : (forall t, nth_error taken idx = Some t -> t <> id + 1) ->
                    forall x, In x r -> ~ In x taken).
    { intro Hne.
      assert (Hnot : ~ In (id + 1) taken).
      { intro Hin. apply In_nth_error in Hin as [j Hj].
        destruct (Nat.lt_ge_cases j idx) as [Hlt|Hge].
        - specialize (Hlo j _ Hlt Hj). lia.
        - destruct (Nat.eq_dec j idx) as [->|Hneq].
          + exact (Hne _ Hj eq_refl).
          + destruct (nth_error taken idx) as [t|] eqn:Et.
            * assert (t < id + 1)
                by (eapply (sorted_nth taken Hs idx j); [exact Et|exact Hj|lia]).
              specialize (Hhi idx t (Nat.le_refl _) Et). lia.
            * apply nth_error_None in Et.
              assert (j < List.length taken)%nat
                by (apply nth_error_Some; congruence). lia. }
      assert (Hp' : scanPosition taken (id + 1) idx).
      { split.
        - intros j t Hj Ht. specialize (Hlo j t Hj Ht). lia.
        - intros j t Hj Ht. specialize (Hhi j t Hj Ht).
          assert (t <> id + 1)
            by (intro; subst t; apply Hnot; eapply nth_error_In; exact Ht).
          lia. }
      assert (Hq' : forall x, In x (free ++ [id + 1]) -> ~ In x taken).
      { intros x Hx. apply in_app_or in Hx as [Hx|[<-|[]]];
          [exact (Hq x Hx)|exact Hnot]. }
      destruct (nth_error taken idx) as [t|] eqn:Et.
      - destruct (id + 1 =? t) eqn:Eq.
        + apply Z.eqb_eq in Eq. exfalso. apply (Hne t eq_refl). lia.
        + exact (IH _ _ _ _ Hp' Hq' Hr).
      - exact (IH _ _ _ _ Hp' Hq' Hr). }
    destruct (nth_error taken idx) as [t|] eqn:Et;
      [|apply Hpush; intros t Ht; discriminate Ht].
    destruct (id + 1 =? t) eqn:Eq;
      [|apply Hpush; intros t' Ht'; injection Ht' as <-;
        apply Z.eqb_neq in Eq; congruence].
    apply Z.eqb_eq in Eq.
    rewrite (skipDuplicates_stays _ taken (id + 1) (S idx)) in Hr.
    + eapply IH; [|exact Hq|exact Hr]. split.
      * intros j t' Hj Ht'. destruct (Nat.eq_dec j idx) as [->|Hneq].
        -- rewrite Et in Ht'. injection Ht' as <-. lia.
        -- assert (t' <= id) by (apply (Hlo j t'); [lia|exact Ht']). lia.
      * intros j t' Hj Ht'.
        assert (t < t')
          by (eapply (sorted_nth taken Hs idx j); [exact Et|exact Ht'|lia]).
        lia.
    + intros t' Ht'.
      assert (t < t')
        by (eapply (sorted_nth taken Hs idx (S idx));
            [exact Et|exact Ht'|lia]).
      lia.
Qed.

(** When the taken ids, as ordered by the code, are in strictly ascending
    numeric order, non-negative and without the reserved id 1, no candidate
    of the scan is a taken id. *)
Theorem free_vlan_ids_not_taken (vlans : list napiVlan) :
  (List.length vlans < 1024)%nat ->
  StronglySorted Z.lt (sort (map vlan_id vlans)) ->
  (forall v, In v vlans -> 0 <= vlan_id v /\ vlan_id v <> 1) ->
  exists free,
    freeVlanIdsOf vlans = Ret free
    /\ forall x, In x free -> ~ In x (map vlan_id vlans).
Proof.
  intros Hn Hs Hv.
  destruct (freeVlanIdsOf_returns vlans Hn) as [free [Hf _]].
  exists free. split; [exact Hf|].
  rewrite freeVlanIdsOf_unfold in Hf.
  assert (Hrange : forall t, In t (sort (map vlan_id vlans)) ->
                             0 <= t /\ t <> 1).
  { intros t Ht. apply (proj1 (sort_In _ _)) in Ht.
    apply in_map_iff in Ht as [v [<- Hin]].
    exact (Hv v Hin). }
  intros x Hx Hin. apply (proj2 (sort_In _ _)) in Hin. revert x Hx Hin.
  refine (scanLoop_skips_taken _ Hs (fun t Ht => proj2 (Hrange t Ht))
            _ _ _ _ _ _ _ Hf).
  - split.
    + intros j t Hj. lia.
    + intros j t _ Ht.
      assert (0 <= t) by (apply Hrange; eapply nth_error_In; exact Ht). lia.
  - intros x [].
Qed.

(** ** createNetwork: every run calls back *)

(** The pipeline either fails before its last stage, or reaches the last
    stage with a vlan and no network, having deleted nothing and created no
    network. *)
Lemma pipeline_reaches_last_stage (napi : NAPI) (req : request)
  (vlanId : option Z) :
  (exists e ctx t,
     pipeline (stages napi req vlanId) emptyContext = (Ret (Some e, ctx), t))
  \/ (exists ctx3 vid t3,
        fabricVlanId ctx3 = Some vid
        /\ fabricNetwork ctx3 = None
        /\ pipeline (stages napi req vlanId) emptyContext
           = (fst (pipeline [createFabricNetworkStage napi req] ctx3),
              (t3 ++ snd (pipeline [createFabricNetworkStage napi req] ctx3))
                %list)
        /\ deletedVlans t3 = [] /\ deletedNetworks t3 = []
        /\ createdNetworks napi t3 = []).
Proof.
  unfold stages.
  destruct vlanId as [id|].
  - destruct (getFabricVLAN napi (account_uuid req) id) as [err|v] eqn:Eg.
    + left. eexists; eexists; eexists.
      apply pipeline_err. unfold lookupExistingFabricVlan. rewrite Eg.
      reflexivity.
    + right.
      set (ctx1 := {| fabricVlanId := Some id; fabricVlan := Some v;
                      freeVlanIds := None; fabricNetwork := None;
                      createdFabricVlan := false |}).
      exists ctx1, id, [Call (GetFabricVLAN (account_uuid req) id)].
      rewrite (pipeline_ok _ _ emptyContext ctx1
                 [Call (GetFabricVLAN (account_uuid req) id)])
        by (unfold lookupExistingFabricVlan; rewrite Eg; reflexivity).
      destruct (createFabricVlan_skipped napi req ctx1 v eq_refl) as [E2 E3].
      rewrite (pipeline_ok _ _ ctx1 ctx1 [] E2).
      rewrite (pipeline_ok _ _ ctx1 ctx1 [] E3).
      repeat split; reflexivity.
  - rewrite (pipeline_ok _ _ emptyContext emptyContext []) by reflexivity.
    cbn [app].
    destruct (listFabricVLANs napi (account_uuid req)) as [err|vlans] eqn:El.
    { left. eexists; eexists; eexists. cbn [fst snd].
      rewrite (pipeline_err _ _ emptyContext emptyContext
                 (napiErrorWrap err "Unable to list fabric vlans")
                 [Call (ListFabricVLANs (account_uuid req));
                  Log Debug [] "vlans: %j"])
        by (unfold findFreeFabricVlanId; rewrite El; reflexivity).
      reflexivity. }
    destruct (Nat.le_gt_cases 1024 (List.length vlans)) as [Hn|Hn].
    { left. eexists; eexists; eexists.
      rewrite (pipeline_err _ _ _ _ _ _
                 (findFree_exhausted napi req emptyContext vlans
                    eq_refl El Hn)).
      reflexivity. }
    destruct (freeVlanIdsOf_returns vlans Hn) as [free [Hf Hne]].
    rewrite (pipeline_ok _ _ _ _ _
               (findFree_candidates napi req emptyContext vlans free
                  eq_refl El Hn Hf)).
    cbn [fabricVlanId fabricVlan fabricNetwork createdFabricVlan
         emptyContext].
    set (ctx2 := {| fabricVlanId := None; fabricVlan := None;
                    freeVlanIds := Some free; fabricNetwork := None;
                    createdFabricVlan := false |}).
    assert (Hfree : free <> []) by (destruct free; [discriminate|congruence]).
    destruct (first_without_conflict napi (account_uuid req) free)
      as [Hall|[pre [c [post [Hsplit [Hpre Hc]]]]]].
    { left. eexists; eexists; eexists.
      rewrite (pipeline_err _ _ ctx2 ctx2
                 (DockerError "No available VLAN for network creation")
                 (creations (account_uuid req) free))
        by (rewrite (createFabricVlan_loop napi req ctx2 free _ _
                       eq_refl eq_refl Hfree
                       (tryVlanIds_exhausted napi req free ctx2 Hall));
            reflexivity).
      reflexivity. }
    destruct (createFabricVLAN napi (account_uuid req) c) as [err|v] eqn:Ec.
    { left. eexists; eexists; eexists.
      rewrite (pipeline_err _ _ ctx2 ctx2
                 (napiErrorWrap err "Unable to create fabric vlan")
                 (creations (account_uuid req) (pre ++ [c])))
        by (rewrite (createFabricVlan_loop napi req ctx2 free _ _
                       eq_refl eq_refl Hfree
                       (eq_trans (f_equal (fun l => forEachPipeline _ l ctx2)
                                    Hsplit)
                          (tryVlanIds_failure napi req pre post c err ctx2
                             Hpre Ec Hc)));
            reflexivity).
      reflexivity. }
    right.
    set (ctx3 := {| fabricVlanId := Some c; fabricVlan := Some v;
                    freeVlanIds := Some free; fabricNetwork := None;
                    createdFabricVlan := true |}).
    exists ctx3, c,
      ([Call (ListFabricVLANs (account_uuid req)); Log Debug [] "vlans: %j";
        Log Debug [] "freeVlanIds: %j"]
       ++ creations (account_uuid req) (pre ++ [c]))%list.
    rewrite (pipeline_ok _ _ ctx2 ctx3
               (creations (account_uuid req) (pre ++ [c])))
      by (rewrite (createFabricVlan_loop napi req ctx2 free _ _
                     eq_refl eq_refl Hfree
                     (eq_trans (f_equal (fun l => forEachPipeline _ l ctx2)
                                  Hsplit)
                        (tryVlanIds_success napi req pre post c v ctx2
                           Hpre Ec)));
          reflexivity).
    cbn [fst snd].
    destruct (creations_attempts (account_uuid req) (pre ++ [c]))
      as [_ [_ [D1 [D2 _]]]].
    split; [reflexivity|]. split; [reflexivity|].
    split; [rewrite <- app_assoc; reflexivity|].
    rewrite deletedVlans_app, deletedNetworks_app, createdNetworks_app,
      D1, D2, (creations_createdNetworks napi).
    repeat split; reflexivity.
Qed.

(** The last stage on a context with a vlan: it fails and leaves the context
    as it was, or it creates one network and records it. *)
Lemma last_stage_outcome (napi : NAPI) (req : request) (ctx : context)
  (vid : Z) :
  fabricVlanId ctx = Some vid ->
  (exists e t,
     pipeline [createFabricNetworkStage napi req] ctx
     = (Ret (Some e, ctx), t))
  \/ (exists net ctx' t,
        pipeline [createFabricNetworkStage napi req] ctx
        = (Ret (None, ctx'), t)
        /\ fabricNetwork ctx' = Some net
        /\ createdNetworks napi t = [n_uuid net]
        /\ deletedVlans t = [] /\ deletedNetworks t = []).
Proof.
  intro Hvid. rewrite pipeline_cons. unfold createFabricNetworkStage.
  rewrite Hvid.
  destruct (createCIDR (orElse (IPRange (IPAMConfig0 (body req)))
                          (Subnet (IPAMConfig0 (body req)))))
    as [[first last]|].
  - match goal with
    | |- context [createFabricNetwork ?n ?a ?v ?p] =>
        destruct (createFabricNetwork n a v p) as [err|net] eqn:E
    end.
    + left. eexists; eexists. cbn. reflexivity.
    + right. exists net. eexists; eexists. cbn.
      split; [reflexivity|]. cbn. rewrite E. repeat split; reflexivity.
  - left. eexists; eexists. reflexivity.
Qed.

(** No assertion of the provisioner fails and nothing it reads is missing:
    for every request and every behaviour of NAPI, createNetwork calls
    back. *)
Theorem createNetwork_calls_back (napi : NAPI) (req : request) :
  exists r, value (createNetwork napi req) = Ret r.
Proof.
  unfold createNetwork.
  destruct (validateVlanLabel (vlanIdLabel (body req))) as [e|vlanId];
    [exists (inl e); reflexivity|].
  destruct (pipeline_reaches_last_stage napi req vlanId)
    as [[e [ctx [t Hp]]]|[ctx3 [vid [t3 [Hv [Hn [Hp _]]]]]]].
  - pose proof (pipeline_failure_state napi req vlanId e ctx
                  (f_equal fst Hp)) as [Hnet _].
    rewrite Hp, bind_ret.
    exists (inl e).
    exact (proj1 (cleanup_after_failure napi req ctx e Hnet)).
  - rewrite Hp.
    destruct (last_stage_outcome napi req ctx3 vid Hv)
      as [[e [t E]]|[net [ctx' [t [E [Hnet _]]]]]];
      rewrite E; cbn [fst snd]; rewrite bind_ret.
    + exists (inl e).
      exact (proj1 (cleanup_after_failure napi req ctx3 e Hn)).
    + exists (inr (networkUuidToDockerId (n_uuid net))).
      unfold value, pipelineDone. cbn [fst snd]. rewrite Hnet. reflexivity.
Qed.

(** When createNetwork succeeds, the id it returns is the docker id of the
    one fabric network the run created, and the run asked for no
    deletion. *)
Theorem success_creates_one_network (napi : NAPI) (req : request)
  (dockerId : string) :
  value (createNetwork napi req) = Ret (inr dockerId) ->
  exists net,
    dockerId = networkUuidToDockerId (n_uuid net)
    /\ createdNetworks napi (trace (createNetwork napi req)) = [n_uuid net]
    /\ deletedVlans (trace (createNetwork napi req)) = []
    /\ deletedNetworks (trace (createNetwork napi req)) = [].
Proof.
  unfold createNetwork.
  destruct (validateVlanLabel (vlanIdLabel (body req))) as [e|vlanId];
    [discriminate|].
  destruct (pipeline_reaches_last_stage napi req vlanId)
    as [[e [ctx [t Hp]]]|[ctx3 [vid [t3 [Hv [Hn [Hp [D1 [D2 D3]]]]]]]]].
  - pose proof (pipeline_failure_state napi req vlanId e ctx
                  (f_equal fst Hp)) as [Hnet _].
    rewrite Hp, bind_ret. unfold value. cbn [fst].
    pose proof (proj1 (cleanup_after_failure napi req ctx e Hnet)) as C.
    unfold value in C. rewrite C. discriminate.
  - rewrite Hp.
    destruct (last_stage_outcome napi req ctx3 vid Hv)
      as [[e [t E]]|[net [ctx' [t [E [Hnet [C1 [C2 C3]]]]]]]];
      rewrite E; cbn [fst snd]; rewrite bind_ret; unfold value, trace;
      cbn [fst snd].
    + pose proof (proj1 (cleanup_after_failure napi req ctx3 e Hn)) as C.
      unfold value in C. rewrite C. discriminate.
    + unfold pipelineDone. cbn [fst snd]. rewrite Hnet. cbn [fst snd ret].
      intro H. injection H as <-. exists net.
      rewrite app_nil_r, createdNetworks_app, deletedVlans_app,
        deletedNetworks_app, D1, D2, D3, C1, C2, C3.
      repeat split; reflexivity.
Qed.

(** ** getNapiNetworksForAccount *)



Lemma poolMembers_returns (pools : list napiNetwork) :
  (forall p, In p pools -> n_networks p <> None) ->
  exists members, poolMembers pools = Ret members.
Proof.
  induction pools as [|p pools IH]; intro Hk; [exists []; reflexivity|].
  simpl. destruct (n_networks p) as [ms|] eqn:Ems.
  - destruct IH as [l Hl]; [intros q Hq; apply Hk; right; exact Hq|].
    rewrite Hl. eexists; reflexivity.
  - exfalso. apply (Hk p); [left; reflexivity|exact Ems].
Qed.


(** When the pool listing fails, its error is the result and the networks
    are never listed; when the network listing fails after the pools were
    read, its error is the result. *)
Theorem account_listing_errors (napi : NAPI) (accountUuid : string) :
  (forall err,
     reply_err (listNetworkPools napi (accountParams accountUuid))
     = Some err ->
     getNapiNetworksForAccount napi accountUuid
     = (Ret (inl (NapiError err)),
        [Call (ListNetworkPools (accountParams accountUuid))]))
  /\ (forall pools err2,
        listNetworkPools napi (accountParams accountUuid) = listed pools ->
        (forall p, In p pools -> n_networks p <> None) ->
        reply_err (listNetworks napi (accountParams accountUuid))
        = Some err2 ->
        getNapiNetworksForAccount napi accountUuid
        = (Ret (inl (NapiError err2)),
           [Call (ListNetworkPools (accountParams accountUuid));
            Call (ListNetworks (accountParams accountUuid))])).
Proof.
  split.
  - intros err H. unfold getNapiNetworksForAccount. rewrite H. reflexivity.
  - intros pools err2 Hp Hall H2.
    unfold getNapiNetworksForAccount. rewrite Hp. cbn [reply_err reply_res listed].
    set (kept := filter (fun pool =>
                           negb (String.eqb (n_nic_tag pool) ADMIN_NIC_TAG))
                        pools).
    assert (Hk : forall p, In p kept -> n_networks p <> None).
    { intros p Hin. apply Hall. unfold kept in Hin.
      apply filter_In in Hin. exact (proj1 Hin). }
    destruct (poolMembers_returns kept Hk) as [members Hm].
    rewrite Hm, H2. reflexivity.
Qed.

End Externals.

(** * The properties on sample services *)

Lemma free_vlan_ids_never_empty_witness :
  (List.length (vlansOf [0; 2; 3]%Z) < 1024)%nat
  /\ exists free,
       freeVlanIdsOf (vlansOf [0; 2; 3]) = Ret free
       /\ (0 <? List.length free)%nat = true.
Proof.
  assert (H : (List.length (vlansOf [0; 2; 3]%Z) < 1024)%nat)
    by (apply Nat.ltb_lt; vm_compute; reflexivity).
  split; [exact H|].
  exact (free_vlan_ids_never_empty (vlansOf [0; 2; 3]) H).
Defined.

(** C9, as stated: the network listing fails with a 500 while the pool
    listing finds a pool; the search returns the error, not the pool. *)
Lemma search_error_despite_pool_match :
  value (listNetPools netsDownNapi (nameFilter "web" sampleAccount))
  = Ret (None, Some {| sr_err := None; sr_res := Some [webPool] |})
  /\ value (getNetworksOrPools netsDownNapi (nameFilter "web" sampleAccount))
     = Ret (Some err500, None).
Proof. split; reflexivity. Qed.

Lemma search_returns_first_decisive_witness :
  value (getNetworksOrPools netsDownNapi (nameFilter "web" sampleAccount))
  = Ret (Some err500, None)
  /\ calls (trace (getNetworksOrPools netsDownNapi
                     (nameFilter "web" sampleAccount)))
     = [ListNetworks (nameFilter "web" sampleAccount)].
Proof.
  assert (Ht : truthy (p_name (nameFilter "web" sampleAccount))
               || truthy (p_uuid (nameFilter "web" sampleAccount)) = true)
    by reflexivity.
  assert (Hu : repliesUsable netsDownNapi (nameFilter "web" sampleAccount)).
  { split; [intros _; discriminate|].
    split; [intro H; discriminate H|intro H; discriminate H]. }
  exact (search_returns_first_decisive netsDownNapi
           (nameFilter "web" sampleAccount) Ht Hu).
Defined.

Lemma ambiguous_exact_id_fails_witness :
  value (findNetworkOrPoolByNameOrId plainId plainId twoNetsNapi fullId
           sampleAccount)
  = Ret (inl (AmbiguousDockerNetworkIdPrefixError fullId)).
Proof.
  apply (ambiguous_exact_id_fails plainId plainId twoNetsNapi fullId
           sampleAccount
           {| op_err := None; op_result := Some [webNet; dbNet] |}
           {| op_err := None; op_result := Some [webNet; dbNet] |}
           {| op_err := None; op_result := Some [] |}
           [webNet; dbNet]).
  - vm_compute; reflexivity.
  - vm_compute; reflexivity.
  - vm_compute; reflexivity.
  - reflexivity.
  - reflexivity.
  - simpl; lia.
Defined.

(** C1, as stated: the exact-id search fails with a 500 and the name search
    finds one network; the resolver hands the 500 to its caller. *)
Lemma exact_id_error_is_surfaced :
  value (byExactId plainId plainId idSearchDownNapi fullId sampleAccount)
  = Ret {| op_err := Some (NapiError err500); op_result := None |}
  /\ value (byName idSearchDownNapi fullId sampleAccount)
     = Ret {| op_err := None; op_result := Some [webNet] |}
  /\ value (findNetworkOrPoolByNameOrId plainId plainId idSearchDownNapi
              fullId sampleAccount)
     = Ret (inl (NapiError err500)).
Proof. repeat split; vm_compute; reflexivity. Qed.

Lemma preferred_outcome_wins_witness :
  value (findNetworkOrPoolByNameOrId plainId plainId idSearchDownNapi "web"
           sampleAccount)
  = Ret (inr webNet)
  /\ In (Log Warn [NapiError err500]
           "Networks: non-critical error searching NAPI")
        (trace (findNetworkOrPoolByNameOrId plainId plainId idSearchDownNapi
                  "web" sampleAccount)).
Proof.
  refine (proj2 (preferred_outcome_wins plainId plainId idSearchDownNapi "web"
                   sampleAccount
                   {| op_err := None; op_result := Some [] |}
                   {| op_err := None; op_result := Some [webNet] |}
                   {| op_err := Some (NapiError err500); op_result := None |}
                   _ _ _)
            webNet (NapiError err500) _ _ _ _ _);
    try reflexivity; vm_compute; reflexivity.
Defined.

Lemma exhausted_account_creates_no_vlan_witness :
  value (createNetwork plainId noNumber sampleCIDR
           (contendedNapi (map Z.of_nat (seq 0 1024)))
           (sampleRequest LUndefined))
  = Ret (inl (DockerError "No free vlan ids"))
  /\ calls (trace (createNetwork plainId noNumber sampleCIDR
                     (contendedNapi (map Z.of_nat (seq 0 1024)))
                     (sampleRequest LUndefined)))
     = [ListFabricVLANs sampleAccount]
  /\ vlanAttempts (trace (createNetwork plainId noNumber sampleCIDR
                            (contendedNapi (map Z.of_nat (seq 0 1024)))
                            (sampleRequest LUndefined))) = [].
Proof.
  apply (exhausted_account_creates_no_vlan plainId noNumber sampleCIDR
           (contendedNapi (map Z.of_nat (seq 0 1024)))
           (sampleRequest LUndefined)
           (vlansOf (map Z.of_nat (seq 0 1024)))).
  - reflexivity.
  - reflexivity.
  - apply Nat.leb_le. vm_compute. reflexivity.
Defined.

Lemma rollback_deletes_what_was_created_witness :
  value (createNetwork plainId noNumber sampleCIDR (contendedNapi [0; 2; 3])
           (sampleRequest LUndefined))
  = Ret (inl (napiErrorWrap err500 "Unable to create network"))
  /\ deletedVlans (trace (createNetwork plainId noNumber sampleCIDR
                            (contendedNapi [0; 2; 3])
                            (sampleRequest LUndefined)))
     = map Some (createdVlans (contendedNapi [0; 2; 3])
                   (trace (createNetwork plainId noNumber sampleCIDR
                             (contendedNapi [0; 2; 3])
                             (sampleRequest LUndefined)))).
Proof.
  assert (Hl : validateVlanLabel noNumber
                 (vlanIdLabel (body (sampleRequest LUndefined))) = inr None)
    by reflexivity.
  assert (Hp : value (pipeline (stages sampleCIDR (contendedNapi [0; 2; 3])
                                  (sampleRequest LUndefined) None)
                        emptyContext)
               = Ret (Some (napiErrorWrap err500 "Unable to create network"),
                      {| fabricVlanId := Some 5;
                         fabricVlan := Some {| vlan_id := 5 |};
                         freeVlanIds :=
                           Some [4; 5; 6; 7; 8; 9; 10; 11; 12; 13];
                         fabricNetwork := None;
                         createdFabricVlan := true |}))
    by (vm_compute; reflexivity).
  pose proof (rollback_deletes_what_was_created plainId noNumber sampleCIDR
                (contendedNapi [0; 2; 3]) (sampleRequest LUndefined)
                None _ _ Hl Hp) as H.
  split; [exact (proj1 H)|exact (proj1 (proj2 (proj2 (proj2 H))))].
Defined.

Lemma vlan_candidates_tried_in_order_witness :
  vlanAttempts (trace (createNetwork plainId noNumber sampleCIDR
                         (contendedNapi [0; 2; 3])
                         (sampleRequest LUndefined))) = [4; 5]
  /\ networkAttempts (trace (createNetwork plainId noNumber sampleCIDR
                               (contendedNapi [0; 2; 3])
                               (sampleRequest LUndefined))) = [5]
  /\ value (createNetwork plainId noNumber sampleCIDR (brokenNapi [0; 2; 3])
              (sampleRequest LUndefined))
     = Ret (inl (napiErrorWrap err500 "Unable to create fabric vlan"))
  /\ vlanAttempts (trace (createNetwork plainId noNumber sampleCIDR
                            (brokenNapi [0; 2; 3])
                            (sampleRequest LUndefined))) = [4; 5].
Proof.
  assert (Hf : freeVlanIdsOf (vlansOf [0; 2; 3])
               = Ret ([4] ++ 5 :: [6; 7; 8; 9; 10; 11; 12; 13])%list)
    by (vm_compute; reflexivity).
  assert (Hn : (List.length (vlansOf [0; 2; 3]%Z) < 1024)%nat)
    by (apply Nat.ltb_lt; vm_compute; reflexivity).
  destruct (vlan_candidates_tried_in_order plainId noNumber sampleCIDR
              (contendedNapi [0; 2; 3]) (sampleRequest LUndefined)
              (vlansOf [0; 2; 3]) [4] [6; 7; 8; 9; 10; 11; 12; 13] 5
              eq_refl eq_refl Hn Hf
              (Forall_cons 4 eq_refl (Forall_nil _)))
    as [_ [Hok _]].
  destruct (vlan_candidates_tried_in_order plainId noNumber sampleCIDR
              (brokenNapi [0; 2; 3]) (sampleRequest LUndefined)
              (vlansOf [0; 2; 3]) [4] [6; 7; 8; 9; 10; 11; 12; 13] 5
              eq_refl eq_refl Hn Hf
              (Forall_cons 4 eq_refl (Forall_nil _)))
    as [_ [_ Hbad]].
  destruct (Hok {| vlan_id := 5 |} eq_refl) as [H1 H2].
  destruct (Hbad err500 eq_refl eq_refl) as [H3 [H4 _]].
  split; [exact H1|]. split; [exact (H2 _ eq_refl)|].
  split; [exact H3|exact H4].
Defined.

Lemma exact_id_search_skipped_witness :
  value (byExactId plainId plainId emptyNapi "web" sampleAccount)
  = Ret {| op_err := None; op_result := Some [] |}
  /\ calls (trace (byExactId plainId plainId emptyNapi "web" sampleAccount))
     = [].
Proof.
  apply (exact_id_search_skipped plainId plainId emptyNapi "web"
           sampleAccount).
  - discriminate.
  - left. simpl. lia.
Defined.

Lemma long_partial_id_skipped_witness :
  value (byDockerId plainId plainId emptyNapi fullId sampleAccount)
  = Ret {| op_err := None; op_result := Some [] |}
  /\ calls (trace (byDockerId plainId plainId emptyNapi fullId
                     sampleAccount)) = [].
Proof.
  apply (long_partial_id_skipped plainId plainId emptyNapi fullId
           sampleAccount).
  apply Nat.leb_le. vm_compute. reflexivity.
Defined.

Lemma partial_id_search_witness :
  exists rest,
    calls (trace (byDockerId plainId plainId emptyNapi "0b0e" sampleAccount))
    = ListNetworks (uuidFilter "0b0e*" sampleAccount) :: rest.
Proof.
  assert (H : (String.length "0b0e" <= 62)%nat)
    by (apply Nat.leb_le; vm_compute; reflexivity).
  exact (partial_id_search plainId plainId emptyNapi "0b0e" sampleAccount H).
Defined.

Lemma search_reply_shape_witness :
  realError (Some err500) = true /\ @None (list napiNetwork) = None.
Proof.
  exact (search_reply_shape netsDownNapi (nameFilter "web" sampleAccount)
           (Some err500) None eq_refl).
Defined.

Lemma no_unfiltered_listing_witness :
  incl (calls (trace (getNetworksOrPools emptyNapi
                        (nameFilter "web" sampleAccount))))
       [ListNetworks (nameFilter "web" sampleAccount);
        ListNetworkPools (nameFilter "web" sampleAccount)].
Proof.
  exact (no_unfiltered_listing emptyNapi (nameFilter "web" sampleAccount)
           eq_refl).
Defined.

Lemma resolver_not_found_witness :
  value (listedNetworks "web"
           [{| op_err := None; op_result := Some [] |};
            {| op_err := None; op_result := Some [] |};
            {| op_err := None; op_result := Some [] |}])
  = Ret (inl (NetworkNotFoundError "web")).
Proof.
  apply resolver_not_found.
  repeat (constructor; [split; reflexivity|]). constructor.
Defined.

Lemma resolved_network_is_preferred_match_witness :
  exists pre op post,
    [{| op_err := None; op_result := Some [] |};
     {| op_err := None; op_result := Some [webNet] |};
     {| op_err := Some (NapiError err500); op_result := None |}]
    = (pre ++ op :: post)%list
    /\ Forall noMatch pre
    /\ op_err op = None
    /\ op_result op = Some [webNet].
Proof.
  exact (resolved_network_is_preferred_match "web"
           [{| op_err := None; op_result := Some [] |};
            {| op_err := None; op_result := Some [webNet] |};
            {| op_err := Some (NapiError err500); op_result := None |}]
           webNet eq_refl).
Defined.

Lemma no_request_iff_label_rejected_witness :
  createNetwork plainId sevenOnly sampleCIDR emptyNapi
    (sampleRequest (LString "one"))
  = (Ret (inl (ValidationError
                 "Invalid value for triton.network.vlan_id: one")), []).
Proof.
  exact (proj1 (no_request_iff_label_rejected plainId sevenOnly sampleCIDR
                  emptyNapi (sampleRequest (LString "one"))) _ eq_refl).
Defined.

Lemma requested_vlan_is_reused_witness :
  calls (trace (createNetwork plainId sevenOnly sampleCIDR emptyNapi
                  (sampleRequest (LString "7"))))
  = [GetFabricVLAN sampleAccount 7;
     CreateFabricNetwork sampleAccount 7
       {| fp_name := "web"; fp_provision_start_ip := "10.0.0.1";
          fp_provision_end_ip := "10.0.0.254"; fp_subnet := "10.0.0.0/24";
          fp_vlan_id := 7 |}]
  /\ value (createNetwork plainId sevenOnly sampleCIDR emptyNapi
              (sampleRequest (LString "7")))
     = Ret (inr (n_uuid webNet)).
Proof.
  exact (proj2 (requested_vlan_is_reused plainId sevenOnly sampleCIDR
                  emptyNapi (sampleRequest (LString "7")) 7 eq_refl)
           {| vlan_id := 7 |} "10.0.0.1"%string "10.0.0.254"%string
           eq_refl eq_refl).
Defined.

Lemma all_candidates_taken_witness :
  value (createNetwork plainId noNumber sampleCIDR (allTakenNapi [0; 2; 3])
           (sampleRequest LUndefined))
  = Ret (inl (DockerError "No available VLAN for network creation"))
  /\ calls (trace (createNetwork plainId noNumber sampleCIDR
                     (allTakenNapi [0; 2; 3]) (sampleRequest LUndefined)))
     = ListFabricVLANs sampleAccount
       :: map (CreateFabricVLAN sampleAccount)
            [4; 5; 6; 7; 8; 9; 10; 11; 12; 13].
Proof.
  assert (Hf : freeVlanIdsOf (vlansOf [0; 2; 3])
               = Ret [4; 5; 6; 7; 8; 9; 10; 11; 12; 13])
    by (vm_compute; reflexivity).
  assert (Hn : (List.length (vlansOf [0; 2; 3]%Z) < 1024)%nat)
    by (apply Nat.ltb_lt; vm_compute; reflexivity).
  apply (all_candidates_taken plainId noNumber sampleCIDR
           (allTakenNapi [0; 2; 3]) (sampleRequest LUndefined)
           (vlansOf [0; 2; 3]) _ eq_refl eq_refl Hn Hf).
  repeat (constructor; [reflexivity|]). constructor.
Defined.

Lemma free_vlan_ids_well_formed_witness :
  exists free,
    freeVlanIdsOf (vlansOf [0; 2; 3]) = Ret free
    /\ (1 <= List.length free <= 10)%nat
    /\ StronglySorted Z.lt free
    /\ (forall x, In x free -> 0 <= x <= 1024 /\ x <> 1).
Proof.
  apply free_vlan_ids_well_formed.
  apply Nat.ltb_lt. vm_compute. reflexivity.
Defined.

Lemma free_vlan_ids_not_taken_witness :
  exists free,
    freeVlanIdsOf (vlansOf [0; 2; 3]) = Ret free
    /\ forall x, In x free -> ~ In x (map vlan_id (vlansOf [0; 2; 3])).
Proof.
  apply free_vlan_ids_not_taken.
  - apply Nat.ltb_lt. vm_compute. reflexivity.
  - replace (sort (map vlan_id (vlansOf [0; 2; 3]))) with [0; 2; 3]
      by (vm_compute; reflexivity).
    repeat (constructor; [|repeat (constructor; try reflexivity)]).
    constructor.
  - intros v [<-|[<-|[<-|[]]]]; simpl; split; lia.
Defined.

Lemma success_creates_one_network_witness :
  exists net,
    n_uuid webNet = plainId (n_uuid net)
    /\ createdNetworks emptyNapi
         (trace (createNetwork plainId noNumber sampleCIDR emptyNapi
                   (sampleRequest LUndefined))) = [n_uuid net]
    /\ deletedVlans (trace (createNetwork plainId noNumber sampleCIDR
                              emptyNapi (sampleRequest LUndefined))) = []
    /\ deletedNetworks (trace (createNetwork plainId noNumber sampleCIDR
                                 emptyNapi (sampleRequest LUndefined))) = [].
Proof.
  apply (success_creates_one_network plainId noNumber sampleCIDR emptyNapi
           (sampleRequest LUndefined) (n_uuid webNet)).
  vm_compute. reflexivity.
Defined.


Lemma account_listing_errors_witness :
  getNapiNetworksForAccount netsDownNapi sampleAccount
  = (Ret (inl (NapiError err500)),
     [Call (ListNetworkPools (accountParams sampleAccount));
      Call (ListNetworks (accountParams sampleAccount))]).
Proof.
  apply (proj2 (account_listing_errors netsDownNapi sampleAccount)
           [webPool] err500).
  - reflexivity.
  - intros p [<-|[]]. discriminate.
  - reflexivity.
Defined.
